(** * asserting: the test dispatcher [Run] and the failure-site resolver
    [CallerInfo]

  A shallow embedding of package [asserting].  Go strings are byte
  sequences and are embedded as [string] (a list of 8-bit [ascii]); [int]
  and [rune] values are embedded as [Z].  Code that can leave its caller
  abruptly (a run-time panic, or [runtime.Goexit] behind
  [testing.T.Fatalf]) lives in a small state-and-exit monad. *)

From Stdlib Require Import String Ascii List ZArith Bool Lia DecimalString.
Import ListNotations.

Local Open Scope string_scope.
Local Open Scope Z_scope.

(** ** Package [strings], [fmt] and [unicode/utf8] as the source uses them *)

Module GoString.

(** [len(s)]. *)
Definition len (s : string) : nat := String.length s.

(** [strings.HasPrefix(s, prefix)]. *)
Fixpoint HasPrefix (s prefix : string) {struct prefix} : bool :=
  match prefix, s with
  | EmptyString, _ => true
  | String _ _, EmptyString => false
  | String c prefix', String d s' => Ascii.eqb c d && HasPrefix s' prefix'
  end.

(** [s[n:]], used by the source only with [n <= len(s)]. *)
Fixpoint sliceFrom (s : string) (n : nat) : string :=
  match n, s with
  | O, _ => s
  | S n', String _ s' => sliceFrom s' n'
  | S _, EmptyString => EmptyString
  end.

(** [strings.Split(s, sep)] for a one-byte separator, the only kind the
    source passes (["/"] and ["."]).  The result is never empty. *)
Fixpoint Split (s : string) (sep : ascii) : list string :=
  match s with
  | EmptyString => [EmptyString]
  | String c s' =>
      if Ascii.eqb c sep then EmptyString :: Split s' sep
      else match Split s' sep with
           | [] => [String c EmptyString]
           | p :: ps => String c p :: ps
           end
  end.

(** The verb [%d] of [fmt.Sprintf]. *)
Definition itoa (n : Z) : string := NilZero.string_of_int (Z.to_int n).

(** [strings.Contains(s, substr)]. *)
Fixpoint Contains (s substr : string) : bool :=
  HasPrefix s substr ||
  match s with
  | EmptyString => false
  | String _ s' => Contains s' substr
  end.

(** The value of a byte. *)
Definition byte (c : ascii) : Z := Z.of_N (N_of_ascii c).

(** [utf8.RuneError]. *)
Definition RuneError : Z := 0xFFFD.

(** A continuation byte lies in [lo, hi]. *)
Definition accepted (lo hi b : Z) : bool := (lo <=? b) && (b <=? hi).

(** [utf8.DecodeRuneInString]: the first rune of [s] and its width in
    bytes; [(RuneError, 0)] on the empty string and [(RuneError, 1)] on a
    malformed encoding. *)
Definition DecodeRuneInString (s : string) : Z * nat :=
  match s with
  | EmptyString => (RuneError, 0%nat)
  | String c0 t =>
      let s0 := byte c0 in
      if s0 <? 0x80 then (s0, 1%nat)
      else if (s0 <? 0xC2) || (0xF4 <? s0) then (RuneError, 1%nat)
      else
        let lo := if s0 =? 0xE0 then 0xA0 else if s0 =? 0xF0 then 0x90 else 0x80 in
        let hi := if s0 =? 0xED then 0x9F else if s0 =? 0xF4 then 0x8F else 0xBF in
        match t with
        | EmptyString => (RuneError, 1%nat)
        | String c1 t1 =>
            let s1 := byte c1 in
            if negb (accepted lo hi s1) then (RuneError, 1%nat)
            else if s0 <? 0xE0 then
              (Z.lor (Z.shiftl (Z.land s0 0x1F) 6) (Z.land s1 0x3F), 2%nat)
            else
              match t1 with
              | EmptyString => (RuneError, 1%nat)
              | String c2 t2 =>
                  let s2 := byte c2 in
                  if negb (accepted 0x80 0xBF s2) then (RuneError, 1%nat)
                  else if s0 <? 0xF0 then
                    (Z.lor (Z.shiftl (Z.land s0 0x0F) 12)
                       (Z.lor (Z.shiftl (Z.land s1 0x3F) 6) (Z.land s2 0x3F)),
                     3%nat)
                  else
                    match t2 with
                    | EmptyString => (RuneError, 1%nat)
                    | String c3 _ =>
                        let s3 := byte c3 in
                        if negb (accepted 0x80 0xBF s3) then (RuneError, 1%nat)
                        else
                          (Z.lor (Z.shiftl (Z.land s0 0x07) 18)
                             (Z.lor (Z.shiftl (Z.land s1 0x3F) 12)
                                (Z.lor (Z.shiftl (Z.land s2 0x3F) 6)
                                   (Z.land s3 0x3F))),
                           4%nat)
                    end
              end
        end
  end.

End GoString.

Import GoString.

(** ** The entry-point name classifier *)

Section Classifier.

(** The lower-case letters beyond ASCII come from the range tables of
    package [unicode], which are no part of this repository: they are a
    parameter of the development. *)
Variable LowerTable : Z -> bool.

(** [unicode.IsLower]. *)
Definition IsLower (r : Z) : bool :=
  if r <? 0x80 then (97 <=? r) && (r <=? 122) else LowerTable r.

(** [isTest(name, prefix)]. *)
Definition isTest (name prefix : string) : bool :=
  if negb (HasPrefix name prefix) then false
  else if Nat.eqb (len name) (len prefix) then true
  else
    let '(rune, _) := DecodeRuneInString (sliceFrom name (len prefix)) in
    negb (IsLower rune).

End Classifier.

(** ** Control: returns, panics and [runtime.Goexit] *)

(** How a call ends.  Nothing in the package recovers a panic, and
    [runtime.Goexit] cannot be recovered: both leave every enclosing call
    of the goroutine. *)
Inductive outcome (A : Type) : Type :=
| Returned (a : A)
| Goexit
| Panic (msg : string).

Arguments Returned {A} a.
Arguments Goexit {A}.
Arguments Panic {A} msg.

(** A computation over a state [S] that returns an [A] or leaves abruptly. *)
Definition M (S A : Type) : Type := S -> S * outcome A.

Definition ret {S A : Type} (a : A) : M S A := fun s => (s, Returned a).

Definition bind {S A B : Type} (c : M S A) (k : A -> M S B) : M S B :=
  fun s =>
    match c s with
    | (s', Returned a) => k a s'
    | (s', Goexit) => (s', Goexit)
    | (s', Panic msg) => (s', Panic msg)
    end.

(** A pure computation that may panic, run inside [M]. *)
Definition lift {S A : Type} (o : outcome A) : M S A := fun s => (s, o).

Declare Scope go_scope.
Delimit Scope go_scope with go.
Notation "x <- c ;; k" := (bind c (fun x => k))
  (at level 61, c at next level, right associativity) : go_scope.
Notation "c ;; k" := (bind c (fun _ => k))
  (at level 61, right associativity) : go_scope.
Local Open Scope go_scope.

(** ** [testing.T] *)

(** What the host harness records about the running test. *)
Record testingT : Type := { failed : bool; output : list string }.

(** [t.T.Fatalf(msg)], the message already formatted: log it, mark the test
    failed, and stop the goroutine ([FailNow] calls [runtime.Goexit]). *)
Definition Fatalf (msg : string) : M testingT unit :=
  fun t => ({| failed := true; output := output t ++ [msg] |}, Goexit).

(** ** The failure-site resolver *)

(** One frame of the goroutine's stack: what [runtime.Caller] reports for
    it, and the name [runtime.FuncForPC] resolves ([None] for [nil]). *)
Record Frame : Type := { pc_file : string; pc_line : Z; pc_func : option string }.

(** [runtime.Caller(i)]; frame [0] is the function that asks. *)
Definition Caller (stack : list Frame) (i : nat) : option Frame := nth_error stack i.

(** [l[i]] of a slice; [None] where Go panics. *)
Definition index {A : Type} (l : list A) (i : Z) : option A :=
  if i <? 0 then None else nth_error l (Z.to_nat i).

Definition slash : ascii := "/"%char.
Definition dot : ascii := "."%char.

(** What one turn of the loop of [CallerInfo] does next. *)
Inductive step : Type :=
| Continue (callers : list string)
| Break (callers : list string)
| Crash (msg : string).

Section Resolver.

Variable LowerTable : Z -> bool.

(** The body of the loop of [CallerInfo] on the frame that
    [runtime.Caller(i)] reports. *)
Definition visit (f : Frame) (callers : list string) : step :=
  if String.eqb (pc_file f) "<autogenerated>" then Break callers
  else
    let parts := Split (pc_file f) slash in
    match index parts (Z.of_nat (length parts) - 2),
          index parts (Z.of_nat (length parts) - 1) with
    | Some dir, Some file =>
        let callers' :=
          if (negb (String.eqb dir "assert") && negb (String.eqb dir "mock")
              && negb (String.eqb dir "require"))
             || String.eqb file "mock_test.go"
          then (callers ++ [(file ++ ":" ++ itoa (pc_line f))%string])%list
          else callers in
        match pc_func f with
        | None => Break callers'
        | Some fname =>
            let segments := Split fname dot in
            match index segments (Z.of_nat (length segments) - 1) with
            | Some name =>
                if isTest LowerTable name "Test"
                   || isTest LowerTable name "Benchmark"
                   || isTest LowerTable name "Example"
                then Break callers'
                else Continue callers'
            | None => Crash "index out of range"
            end
        end
    | _, _ => Crash "index out of range"
    end.

(** The statements of [CallerInfo] after its loop. *)
Definition afterLoop (callers : list string) : outcome string :=
  if (0 <? Z.of_nat (length callers))
  then match index callers (Z.of_nat (length callers) - 1) with
       | Some c => Returned c
       | None => Panic "index out of range"
       end
  else Returned "".

(** The loop of [CallerInfo] from index [i] on: [frames] holds the frames
    [i], [i+1], ... of the stack; running out of them is [!ok], where the
    source returns the empty string at once. *)
Fixpoint walk (frames : list Frame) (callers : list string) : outcome string :=
  match frames with
  | [] => Returned ""
  | f :: frames' =>
      match visit f callers with
      | Continue callers' => walk frames' callers'
      | Break callers' => afterLoop callers'
      | Crash msg => Panic msg
      end
  end.

(** [CallerInfo()], on the stack it is called on. *)
Definition CallerInfo (stack : list Frame) : outcome string := walk stack [].

(** [TestCase.Assert]: [stack] is the stack [CallerInfo] sees when the
    assertion calls it. *)
Definition Assert (stack : list Frame) (v : bool) : M testingT unit :=
  if negb v then
    info <- lift (CallerInfo stack) ;;
    Fatalf ("Expected true, got false [" ++ info ++ "]")
  else ret tt.

End Resolver.

(** ** The dispatcher *)

(** The line [Run] prints before the tests. *)
Definition banner : string := "===> Running tests..." ++ String (ascii_of_nat 10) "".

(** The message of the panic of [reflect.Value.Call] on the zero [Value],
    which is what [MethodByName] returns when no method has the name. *)
Definition zeroValueCall : string := "reflect: call of reflect.Value.Call on zero Value".

(** The message of the panic of [Call(nil)] on a method with parameters. *)
Definition tooFewArguments : string := "reflect: Call with too few input arguments".

Section Dispatcher.

(** Whatever the operations of a test case read and write: the fields of
    the value and the [testing.T] behind it. *)
Variable World : Type.

(** One exported method of the value handed to [Run], as package [reflect]
    shows it: its name, the number of arguments a call must supply, and
    what calling it does. *)
Record Method : Type := { Name : string; NumIn : nat; Func : M World unit }.

(** What a run of the dispatcher leaves behind: the methods invoked through
    [reflect], in order, the lines printed, and the world of the test
    case. *)
Record state : Type := { calls : list string; stdout : list string; world : World }.

(** [value.MethodByName(name)]; [None] is the zero [Value]. *)
Definition MethodByName (tc : list Method) (name : string) : option Method :=
  find (fun m => String.eqb (Name m) name) tc.

(** [v.Call(nil)]. *)
Definition Call (v : option Method) : M state unit :=
  fun s =>
    match v with
    | None => (s, Panic zeroValueCall)
    | Some m =>
        if Nat.eqb (NumIn m) 0 then
          let (w, o) := Func m (world s) in
          ({| calls := (calls s ++ [Name m])%list; stdout := stdout s; world := w |}, o)
        else (s, Panic tooFewArguments)
    end.

(** [fmt.Printf(text)]. *)
Definition Printf (text : string) : M state unit :=
  fun s =>
    ({| calls := calls s; stdout := (stdout s ++ [text])%list; world := world s |},
     Returned tt).

(** The first loop of [Run]: the flags [be] and [ba]. *)
Definition scanHooks (tc : list Method) : bool * bool :=
  fold_left
    (fun (flags : bool * bool) (method : Method) =>
       let (be, ba) := flags in
       if HasPrefix (Name method) "BeforeEach" then (true, ba)
       else if HasPrefix (Name method) "BeforeAll" then (be, true)
       else (be, ba))
    tc (false, false).

(** The body of the second loop of [Run] on one enumerated method. *)
Definition runTest (tc : list Method) (be : bool) (method : Method) : M state unit :=
  if HasPrefix (Name method) "Test" then
    (if be then Call (MethodByName tc "BeforeEach") else ret tt) ;;
    Call (MethodByName tc (Name method))
  else ret tt.

(** The second loop of [Run] over the methods still to enumerate. *)
Fixpoint runTests (tc rest : list Method) (be : bool) : M state unit :=
  match rest with
  | [] => ret tt
  | method :: rest' => runTest tc be method ;; runTests tc rest' be
  end.

(** [Run(i)], on the method set of [i] in the order [reflect] enumerates
    it. *)
Definition Run (tc : list Method) : M state unit :=
  let (be, ba) := scanHooks tc in
  (if ba then Call (MethodByName tc "BeforeAll") else ret tt) ;;
  Printf banner ;;
  runTests tc tc be.

(** Method names are unique within a method set. *)
Definition wellFormed (tc : list Method) : Prop := NoDup (map Name tc).

(** The operation returns to its caller, whatever world it runs in. *)
Definition returns (m : Method) : Prop := forall w, snd (Func m w) = Returned tt.

(** The operation leaves through [runtime.Goexit], whatever world it runs
    in: the way of a fatal assertion failure. *)
Definition exits (m : Method) : Prop := forall w, snd (Func m w) = Goexit.

(** The names of the operations [Run] selects as tests, as enumerated. *)
Definition testNames (tc : list Method) : list string :=
  filter (fun n => HasPrefix n "Test") (map Name tc).

(** No name of the method set starts with a hook prefix. *)
Definition hookFree (tc : list Method) : bool :=
  forallb (fun m => negb (HasPrefix (Name m) "BeforeEach")
                    && negb (HasPrefix (Name m) "BeforeAll")) tc.

(** Some name of the method set starts with [prefix]. *)
Definition hasPrefixed (prefix : string) (tc : list Method) : bool :=
  existsb (fun m => HasPrefix (Name m) prefix) tc.

(** Some method of the method set is called [name]. *)
Definition hasNamed (name : string) (tc : list Method) : bool :=
  existsb (fun m => String.eqb (Name m) name) tc.

(** The calls of a run, without those made before it. *)
Definition newCalls (before after : state) : list string :=
  skipn (length (calls before)) (calls after).

End Dispatcher.

Arguments Name {World} m.
Arguments NumIn {World} m.
Arguments Func {World} m.
Arguments Build_Method {World} Name NumIn Func.
Arguments calls {World} s.
Arguments stdout {World} s.
Arguments world {World} s.
Arguments Build_state {World} calls stdout world.
Arguments MethodByName {World} tc name.
Arguments Call {World} v.
Arguments Printf {World} text.
Arguments scanHooks {World} tc.
Arguments runTest {World} tc be method.
Arguments runTests {World} tc rest be.
Arguments Run {World} tc.
Arguments wellFormed {World} tc.
Arguments returns {World} m.
Arguments exits {World} m.
Arguments testNames {World} tc.
Arguments hookFree {World} tc.
Arguments hasPrefixed {World} prefix tc.
Arguments hasNamed {World} name tc.
Arguments newCalls {World} before after.

(** The names the second loop of [Run] invokes for the test [n]. *)
Definition round (be : bool) (n : string) : list string :=
  if be then ["BeforeEach"; n] else [n].

(** The names the second loop invokes for the tests [names], one after the
    other. *)
Definition rounds (be : bool) (names : list string) : list string :=
  flat_map (round be) names.

(** ** The assertions of asserting.go, which format no failure site, and
    the tests that come with them *)

Module Plain.

(** [TestCase.Assert]. *)
Definition Assert (v : bool) : M testingT unit :=
  if negb v then Fatalf "Expected true, got false" else ret tt.

(** [TestCase.AssertFalse]. *)
Definition AssertFalse (v : bool) : M testingT unit :=
  if v then Fatalf "Expected false, got true" else ret tt.

(** [http.StatusCreated]. *)
Definition StatusCreated : Z := 201.

(** [TestCase.AssertCreated]. *)
Definition AssertCreated (code : Z) : M testingT unit :=
  if negb (code =? StatusCreated)
  then Fatalf ("Expected 201, got " ++ itoa code)
  else ret tt.

(** [TestCase.TestAddition]; [/] on integer constants truncates. *)
Definition TestAddition : M testingT unit :=
  Assert (2 =? 1 * 4 ÷ 2) ;;
  Assert (0 =? -1 + 1).

(** [TestCase.TestDivision]. *)
Definition TestDivision : M testingT unit :=
  AssertFalse (4 =? 10 ÷ 3).

(** [TestCase.TestNonOKResponse]. *)
Definition TestNonOKResponse : M testingT unit :=
  AssertCreated 201.

End Plain.

(** ** The vocabulary of the specification of [CallerInfo] *)

Section Attribution.

Variable LowerTable : Z -> bool.

(** The directory a frame's file lies in, when its path has one. *)
Definition dirOf (f : Frame) : option string :=
  let parts := Split (pc_file f) slash in
  index parts (Z.of_nat (length parts) - 2).

(** The last component of the path of a frame's file. *)
Definition baseOf (f : Frame) : string := last (Split (pc_file f) slash) "".

(** The directories of the assertion machinery. *)
Definition internalDir (dir : string) : bool :=
  String.eqb dir "assert" || String.eqb dir "mock" || String.eqb dir "require".

(** The frame originates in an internal directory. *)
Definition internal (f : Frame) : bool :=
  match dirOf f with
  | Some dir => internalDir dir
  | None => false
  end.

(** The frame is kept out of the filtered frame list. *)
Definition excluded (f : Frame) : bool :=
  internal f && negb (String.eqb (baseOf f) "mock_test.go").

(** The file marks a frame without source information. *)
Definition sentinel (f : Frame) : bool := String.eqb (pc_file f) "<autogenerated>".

(** The ["file:line"] token of a frame. *)
Definition token (f : Frame) : string := baseOf f ++ ":" ++ itoa (pc_line f).

(** A function name with its package dropped. *)
Definition shortName (fname : string) : string := last (Split fname dot) "".

(** The name looks like a test, benchmark or example entry point. *)
Definition entryPoint (name : string) : bool :=
  isTest LowerTable name "Test"
  || isTest LowerTable name "Benchmark"
  || isTest LowerTable name "Example".

(** The function of the frame resolves, to this short name. *)
Definition funcOf (f : Frame) : option string := option_map shortName (pc_func f).

(** The walk ends once this frame has been looked at: its function is an
    entry point, or does not resolve. *)
Definition boundary (f : Frame) : bool :=
  match funcOf f with
  | Some name => entryPoint name
  | None => true
  end.

(** The frames the walk looks at, outwards, and whether it was stopped (by
    the sentinel, which is not looked at, or at a boundary frame, which is)
    rather than running off the end of the stack. *)
Fixpoint walked (frames : list Frame) : list Frame * bool :=
  match frames with
  | [] => ([], false)
  | f :: frames' =>
      if sentinel f then ([], true)
      else if boundary f then ([f], true)
      else let (seen, stopped) := walked frames' in (f :: seen, stopped)
  end.

(** The filtered frame list: the tokens of the frames looked at, without
    the excluded ones. *)
Definition filtered (frames : list Frame) : list string :=
  map token (filter (fun f => negb (excluded f)) (fst (walked frames))).

(** The claim that the resolver always answers with the last token of the
    filtered frame list. *)
Definition answersLastToken (stack : list Frame) : Prop :=
  CallerInfo LowerTable stack = Returned (last (filtered stack) "").

(** Ordinary user code: a file with source information, in a directory
    that is not internal. *)
Definition ordinary (f : Frame) : bool :=
  negb (sentinel f) &&
  match dirOf f with
  | Some dir => negb (internalDir dir)
  | None => false
  end.

(** The enclosing function of the frame is an entry point. *)
Definition inEntryPoint (f : Frame) : bool :=
  match funcOf f with
  | Some name => entryPoint name
  | None => false
  end.

(** The enclosing function of the frame resolves and is no entry point. *)
Definition inHelper (f : Frame) : bool :=
  match funcOf f with
  | Some name => negb (entryPoint name)
  | None => false
  end.

(** The claim that internal frames followed by a user frame in an entry
    point are always attributed to that user frame. *)
Definition attributesToUserFrame (inner : list Frame) (user : Frame)
    (outer : list Frame) : Prop :=
  forallb internal inner = true ->
  ordinary user = true ->
  inEntryPoint user = true ->
  CallerInfo LowerTable (inner ++ user :: outer)%list = Returned (token user).

End Attribution.

(** ** The claims about the dispatcher, as the specification words them *)

Section DispatchClaims.

Context {World : Type}.

(** The names newly invoked by a run of [Run]. *)
Definition invoked (tc : list (Method World)) (s : state World) : list string :=
  newCalls s (fst (Run tc s)).

(** A fatal failure in one test operation leaves the later ones to run. *)
Definition siblingsStillRun (tc : list (Method World)) (s : state World) : Prop :=
  forall pre m post,
    tc = (pre ++ m :: post)%list ->
    HasPrefix (Name m) "Test" = true ->
    exits m ->
    forall m', In m' post -> HasPrefix (Name m') "Test" = true ->
               In (Name m') (invoked tc s).

(** Without hooks, every test operation is invoked exactly once and no
    other operation is invoked. *)
Definition everyTestOnce (tc : list (Method World)) (s : state World) : Prop :=
  wellFormed tc ->
  hookFree tc = true ->
  (forall m, In m tc -> NumIn m = 0%nat) ->
  forall m, In m tc ->
            count_occ string_dec (invoked tc s) (Name m)
            = if HasPrefix (Name m) "Test" then 1%nat else 0%nat.

(** With a per-test hook, the hook is invoked as often as test operations
    are. *)
Definition hookCountMatches (tc : list (Method World)) (s : state World) : Prop :=
  wellFormed tc ->
  (forall m, In m tc -> NumIn m = 0%nat) ->
  (exists m, In m tc /\ HasPrefix (Name m) "BeforeEach" = true) ->
  count_occ string_dec (invoked tc s) "BeforeEach"
  = length (filter (fun n => HasPrefix n "Test") (invoked tc s)).

End DispatchClaims.

(** ** Sample inputs *)

(** A table without lower-case letters beyond ASCII; the names below are
    ASCII, and nothing computed from them looks at the table. *)
Definition asciiLower : Z -> bool := fun _ => false.

(** The frames of [CallerInfo] and of the assertion that called it. *)
Definition assertingFrames : list Frame :=
  [ {| pc_file := "/go/src/github.com/rendon/asserting/asserting.go";
       pc_line := 251;
       pc_func := Some "github.com/rendon/asserting.CallerInfo" |};
    {| pc_file := "/go/src/github.com/rendon/asserting/asserting.go";
       pc_line := 77;
       pc_func := Some "github.com/rendon/asserting.TestCase.Assert" |} ].

(** The stack [CallerInfo] sees under an assertion at [line] of the
    operation [op] of a suite that [TestAll] hands to [Run]. *)
Definition stackUnder (op : string) (line : Z) : list Frame :=
  (assertingFrames ++
   [ {| pc_file := "/home/dev/shop/suite_test.go";
        pc_line := line;
        pc_func := Some ("example.com/shop.Suite." ++ op)%string |};
     {| pc_file := "/usr/local/go/src/reflect/value.go";
        pc_line := 380;
        pc_func := Some "reflect.Value.Call" |};
     {| pc_file := "/go/src/github.com/rendon/asserting/asserting.go";
        pc_line := 69;
        pc_func := Some "github.com/rendon/asserting.Run" |};
     {| pc_file := "/home/dev/shop/suite_test.go";
        pc_line := 9;
        pc_func := Some "example.com/shop.TestAll" |};
     {| pc_file := "/usr/local/go/src/testing/testing.go";
        pc_line := 1595;
        pc_func := Some "testing.tRunner" |} ])%list.

(** An operation that does nothing. *)
Definition passes (name : string) : Method testingT :=
  {| Name := name; NumIn := 0; Func := ret tt |}.

(** An operation whose assertion at [line] fails. *)
Definition fails (name : string) (line : Z) : Method testingT :=
  {| Name := name; NumIn := 0;
     Func := Assert asciiLower (stackUnder name line) false |}.

(** A fresh [testing.T] and nothing dispatched yet. *)
Definition fresh : state testingT :=
  {| calls := []; stdout := []; world := {| failed := false; output := [] |} |}.

(** Two tests, the first of which fails. *)
Definition firstFails : list (Method testingT) :=
  [fails "TestA" 12; passes "TestB"].

(** Two tests and a helper, all passing. *)
Definition allPass : list (Method testingT) :=
  [passes "Helper"; passes "TestA"; passes "TestB"].

(** A per-test hook whose own assertion fails. *)
Definition hookFails : list (Method testingT) :=
  [fails "BeforeEach" 20; passes "TestA"].

(** Both hooks under their exact names, and two tests. *)
Definition hooked : list (Method testingT) :=
  [passes "BeforeAll"; passes "BeforeEach"; passes "TestA"; passes "TestB"].

(** A once-only hook whose name extends the prefix. *)
Definition longBeforeAll : list (Method testingT) :=
  [passes "BeforeAllSetup"; passes "TestA"].

(** A per-test hook whose name extends the prefix. *)
Definition longBeforeEach : list (Method testingT) :=
  [passes "BeforeEachDB"; passes "TestA"].

(** A method that is no entry point for [isTest]. *)
Definition testicular : list (Method testingT) := [passes "Testicular"].

(** A helper of user code, called from a goroutine no test function is
    on. *)
Definition helperFrame : Frame :=
  {| pc_file := "/home/dev/shop/helper.go"; pc_line := 10;
     pc_func := Some "example.com/shop.check" |}.

(** The stack [CallerInfo] sees under an assertion made on a goroutine
    that a test started with a function literal: no frame of it is inside
    a function named like an entry point. *)
Definition goroutineStack : list Frame :=
  (assertingFrames ++
   [ {| pc_file := "/home/dev/shop/suite_test.go";
        pc_line := 15;
        pc_func := Some "example.com/shop.TestAll.func1" |};
     {| pc_file := "/usr/local/go/src/runtime/asm_amd64.s";
        pc_line := 1650;
        pc_func := Some "runtime.goexit" |} ])%list.

(** A test function of the assertion library itself. *)
Definition libraryTest : Frame :=
  {| pc_file := "/go/src/github.com/stretchr/testify/assert/assertions_test.go";
     pc_line := 30;
     pc_func := Some "github.com/stretchr/testify/assert.TestEqual" |}.

(** A helper of the assertion library. *)
Definition libraryHelper : Frame :=
  {| pc_file := "/go/src/github.com/stretchr/testify/assert/assertions.go";
     pc_line := 120;
     pc_func := Some "github.com/stretchr/testify/assert.Fail" |}.

(** A test function of user code. *)
Definition userTest : Frame :=
  {| pc_file := "/home/dev/shop/cart_test.go"; pc_line := 12;
     pc_func := Some "example.com/shop.TestCart" |}.

(** ** [Run] without hooks: asserting.go, the first file of the package,
    and [runTests] of yatf_test.go *)

Module Hookless.

Section Dispatcher.

Variable World : Type.

(** The loop of [Run] over the methods still to enumerate. *)
Fixpoint loop (tc rest : list (Method World)) : M (state World) unit :=
  match rest with
  | [] => ret tt
  | method :: rest' =>
      (if HasPrefix (Name method) "Test"
       then Call (MethodByName tc (Name method))
       else ret tt) ;;
      loop tc rest'
  end.

(** [Run(i)]. *)
Definition Run (tc : list (Method World)) : M (state World) unit := loop tc tc.

End Dispatcher.

Arguments loop {World} tc rest.
Arguments Run {World} tc.

End Hookless.

(** ** What [Run] does when nothing leaves abruptly *)

Section Plan.

Context {World : Type}.

(** The method a hook call resolves to, when the hook is flagged. *)
Definition hookOf (flag : bool) (name : string) (tc : list (Method World))
  : list (Method World) :=
  if flag then
    match MethodByName tc name with
    | Some h => [h]
    | None => []
    end
  else [].

(** The methods [Run] calls, in order. *)
Definition plan (tc : list (Method World)) : list (Method World) :=
  (hookOf (snd (scanHooks tc)) "BeforeAll" tc ++
   flat_map (fun m => hookOf (fst (scanHooks tc)) "BeforeEach" tc ++ [m])
     (filter (fun m => HasPrefix (Name m) "Test") tc))%list.

(** A name [Run] may invoke on [tc]: the name of a method of [tc] that is
    a hook's exact name or starts with ["Test"]. *)
Definition dispatchable (tc : list (Method World)) (n : string) : Prop :=
  In n (map Name tc) /\
  (n = "BeforeAll" \/ n = "BeforeEach" \/ HasPrefix n "Test" = true).

(** The world after the bodies of [ms] have run one after the other. *)
Definition runBodies (ms : list (Method World)) (w : World) : World :=
  fold_left (fun w m => fst (Func m w)) ms w.

End Plan.

(** ** More of the vocabulary of [CallerInfo] *)

Section Passing.

Variable LowerTable : Z -> bool.

(** The walk looks at the frame and goes on to the next. *)
Definition passedBy (f : Frame) : bool :=
  negb (sentinel f)
  && match dirOf f with Some _ => true | None => false end
  && negb (boundary LowerTable f).

(** The tokens the walk accumulates over frames it passes. *)
Definition tokensOf (frames : list Frame) : list string :=
  map token (filter (fun f => negb (excluded f)) frames).

End Passing.

(** ** The test case of the package and its HTTP assertions *)

(** What the assertions look at in an [http.Response]: the status code,
    and what [ioutil.ReadAll] on its body gives. *)
Record Response : Type :=
  { StatusCode : Z; Body : string; ReadErr : option string }.

(** [TestCase]; a [nil] error, server or response is [None], and the
    server is known by its URL. *)
Record TestCase : Type :=
  { ResponseBody : string;
    T : testingT;
    err : option string;
    server : option string;
    response : option Response }.

(** [NewTestCase(t)]. *)
Definition NewTestCase (t : testingT) : TestCase :=
  {| ResponseBody := ""; T := t; err := None; server := None; response := None |}.

(** The message of the panic on a [nil] pointer. *)
Definition nilDereference : string :=
  "runtime error: invalid memory address or nil pointer dereference".

(** [http.StatusOK]. *)
Definition StatusOK : Z := 200.

(** [t.T.Fatalf(msg)] on a test case. *)
Definition fatal (msg : string) : M TestCase unit :=
  fun t =>
    let (t', o) := Fatalf msg (T t) in
    ({| ResponseBody := ResponseBody t; T := t'; err := err t;
        server := server t; response := response t |}, o).

Section Web.

Variable LowerTable : Z -> bool.

(** The answer of [http.Get] to a URL: the response and the error. *)
Variable httpGet : string -> option Response * option string.

(** [TestCase.AssertOK]; [stack] is the stack [CallerInfo] sees at the one
    call of it that a run of the method makes. *)
Definition AssertOK (stack : list Frame) : M TestCase unit :=
  fun t =>
    ((match err t with
      | Some e =>
          info <- lift (CallerInfo LowerTable stack) ;;
          fatal ("Request error is not nil: " ++ e ++ " [" ++ info ++ "]")
      | None => ret tt
      end) ;;
     (match response t with
      | None =>
          info <- lift (CallerInfo LowerTable stack) ;;
          fatal ("Response is nil [" ++ info ++ "]")
      | Some _ => ret tt
      end) ;;
     match response t with
     | None => lift (Panic nilDereference)
     | Some r =>
         if negb (StatusCode r =? StatusOK) then
           info <- lift (CallerInfo LowerTable stack) ;;
           fatal ("Expected 200, got " ++ itoa (StatusCode r) ++ " [" ++ info ++ "]")
         else ret tt
     end) t.

(** [TestCase.AssertStatus]. *)
Definition AssertStatus (stack : list Frame) (code : Z) : M TestCase unit :=
  fun t =>
    match response t with
    | None => (t, Panic nilDereference)
    | Some r =>
        (if negb (StatusCode r =? code) then
           i <- lift (CallerInfo LowerTable stack) ;;
           fatal ("Expected " ++ itoa code ++ ", got " ++ itoa (StatusCode r)
                  ++ " [" ++ i ++ "]")
         else ret tt) t
    end.

(** [TestCase.Get]. *)
Definition Get (stack : list Frame) (url : string) : M TestCase unit :=
  fun t =>
    match server t with
    | None =>
        (info <- lift (CallerInfo LowerTable stack) ;;
         fatal ("Uninitialized test server [" ++ info ++ "]")) t
    | Some base =>
        let (resp, e) := httpGet (base ++ url) in
        match e with
        | Some _ =>
            ({| ResponseBody := ResponseBody t; T := T t; err := e;
                server := server t; response := resp |}, Returned tt)
        | None =>
            match resp with
            | None =>
                ({| ResponseBody := ResponseBody t; T := T t; err := e;
                    server := server t; response := resp |},
                 Panic nilDereference)
            | Some r =>
                ({| ResponseBody := Body r; T := T t; err := ReadErr r;
                    server := server t; response := resp |}, Returned tt)
            end
        end
    end.

End Web.

(** ** More sample inputs *)

(** A frame whose file has no directory part. *)
Definition bareFrame : Frame :=
  {| pc_file := "_cgo_gotypes.go"; pc_line := 3;
     pc_func := Some "example.com/shop._Cfunc_check" |}.

(** A frame without source information. *)
Definition autogenerated : Frame :=
  {| pc_file := "<autogenerated>"; pc_line := 1;
     pc_func := Some "example.com/shop.(*Suite).TestA" |}.

(** The once-only hook fails. *)
Definition setupFails : list (Method testingT) :=
  [fails "BeforeAll" 5; passes "TestA"].

(** An operation that logs a line and returns. *)
Definition logs (name : string) : Method testingT :=
  {| Name := name; NumIn := 0;
     Func := fun t => ({| failed := failed t; output := (output t ++ [name])%list |},
                       Returned tt) |}.

(** Both hooks and two tests, each logging its name. *)
Definition logging : list (Method testingT) :=
  [logs "BeforeAll"; logs "BeforeEach"; logs "Helper"; logs "TestA"; logs "TestB"].

(** A test case after a request that was answered with [code]. *)
Definition answered (code : Z) : TestCase :=
  {| ResponseBody := "{}"; T := {| failed := false; output := [] |}; err := None;
     server := Some "http://127.0.0.1:8080";
     response := Some {| StatusCode := code; Body := "{}"; ReadErr := None |} |}.

(** A network that answers every request with 200 and an empty object. *)
Definition alwaysOK (url : string) : option Response * option string :=
  (Some {| StatusCode := 200; Body := "{}"; ReadErr := None |}, None).

(** A network on which every request fails. *)
Definition unreachable (url : string) : option Response * option string :=
  (None, Some "connection refused").

(** * Properties *)

(** ** Strings *)

Lemma HasPrefix_app (p r : string) : HasPrefix (p ++ r) p = true.
Proof.
  induction p as [|c p IH]; simpl.
  - reflexivity.
  - now rewrite Ascii.eqb_refl, IH.
Qed.

Lemma HasPrefix_inv (s p : string) :
  HasPrefix s p = true -> exists r, s = p ++ r.
Proof.
  revert s; induction p as [|c p IH]; intros s H.
  - now exists s.
  - destruct s as [|d s]; simpl in H; [discriminate|].
    apply andb_true_iff in H as [Hc Hp].
    apply Ascii.eqb_eq in Hc; subst d.
    destruct (IH _ Hp) as [r ->].
    now exists r.
Qed.

Lemma sliceFrom_app (p r : string) : sliceFrom (p ++ r) (len p) = r.
Proof.
  induction p as [|c p IH]; simpl.
  - now destruct r.
  - exact IH.
Qed.

Lemma len_app (p r : string) : len (p ++ r) = (len p + len r)%nat.
Proof. induction p as [|c p IH]; simpl; [reflexivity | now f_equal]. Qed.

Lemma len_app_same (p r : string) :
  Nat.eqb (len (p ++ r)) (len p) = true <-> r = "".
Proof.
  rewrite Nat.eqb_eq, len_app. split.
  - intros H. destruct r; [reflexivity | simpl in H; lia].
  - intros ->. simpl. lia.
Qed.

Example itoa_200 : itoa 200 = "200".
Proof. reflexivity. Qed.

Example itoa_negative : itoa (-17) = "-17".
Proof. reflexivity. Qed.

Example Split_path : Split "/a/b.go" slash = [""; "a"; "b.go"].
Proof. reflexivity. Qed.

Example Split_no_separator : Split "b.go" slash = ["b.go"].
Proof. reflexivity. Qed.

Example DecodeRune_two_bytes :
  DecodeRuneInString (String (ascii_of_nat 195) (String (ascii_of_nat 169) "x"))
  = (233, 2%nat).
Proof. reflexivity. Qed.

Example DecodeRune_stray_continuation :
  DecodeRuneInString (String (ascii_of_nat 169) "x") = (RuneError, 1%nat).
Proof. reflexivity. Qed.

(** ** The classifier *)

Section ClassifierFacts.

Variable LowerTable : Z -> bool.

(** C7: with prefix ["Test"], [isTest] accepts ["Test"], ["TestFoo"] and
    ["TestHTTP"] and rejects ["Testicular"]; for every prefix it accepts
    exactly the names that start with the prefix and whose next character,
    if there is one, is not a lower-case letter. *)
Theorem isTest_classifies :
  isTest LowerTable "Test" "Test" = true /\
  isTest LowerTable "TestFoo" "Test" = true /\
  isTest LowerTable "TestHTTP" "Test" = true /\
  isTest LowerTable "Testicular" "Test" = false /\
  forall name prefix,
    isTest LowerTable name prefix = true <->
    exists rest,
      name = prefix ++ rest /\
      (rest = "" \/ IsLower LowerTable (fst (DecodeRuneInString rest)) = false).
Proof.
  repeat split; try reflexivity.
  - unfold isTest. intros H.
    destruct (HasPrefix name prefix) eqn:Hp; simpl in H; [|discriminate].
    apply HasPrefix_inv in Hp as [rest ->].
    exists rest. split; [reflexivity|].
    destruct (Nat.eqb (len (prefix ++ rest)) (len prefix)) eqn:Hl.
    + left. now apply (len_app_same prefix).
    + right. rewrite sliceFrom_app in H.
      destruct (DecodeRuneInString rest) as [r n]; simpl.
      now apply negb_true_iff.
  - intros [rest [-> Hrest]]. unfold isTest.
    rewrite HasPrefix_app; simpl.
    destruct (Nat.eqb (len (prefix ++ rest)) (len prefix)) eqn:Hl; [reflexivity|].
    rewrite sliceFrom_app.
    destruct Hrest as [-> | Hlow].
    + assert (E : Nat.eqb (len (prefix ++ "")) (len prefix) = true)
        by now apply (len_app_same prefix).
      congruence.
    + destruct (DecodeRuneInString rest) as [r n]; simpl in *.
      now rewrite Hlow.
Qed.

End ClassifierFacts.

(** ** The assertions of asserting.go *)

(** C8: the assertions of [TestAddition] ([2 == 1*4/2], [0 == -1+1]) and of
    [TestDivision] ([4 == 10/3], false since the quotient truncates to 3)
    return without calling [Fatalf]; [AssertCreated(200)] calls [Fatalf]
    with a message that contains both ["201"] and ["200"], and does not
    return. *)
Theorem plain_assertions (t : testingT) :
  Plain.TestAddition t = (t, Returned tt) /\
  Plain.TestDivision t = (t, Returned tt) /\
  10 ÷ 3 = 3 /\
  exists msg,
    Plain.AssertCreated 200 t
    = ({| failed := true; output := output t ++ [msg] |}, Goexit) /\
    Contains msg "201" = true /\ Contains msg "200" = true.
Proof.
  repeat split.
  exists "Expected 201, got 200". repeat split.
Qed.

(** ** The dispatcher *)

Arguments HasPrefix s prefix : simpl never.

Section DispatcherFacts.

Context {World : Type}.

(** *** The monad *)

Lemma bind_ret {S A B : Type} (a : A) (k : A -> M S B) (s : S) :
  bind (ret a) k s = k a s.
Proof. reflexivity. Qed.

Lemma bind_assoc {S A B C : Type} (c : M S A) (k : A -> M S B)
    (k' : B -> M S C) (s : S) :
  bind (bind c k) k' s = bind c (fun a => bind (k a) k') s.
Proof. unfold bind. destruct (c s) as [s1 [a| |msg]]; reflexivity. Qed.

Lemma bind_ext {S A B : Type} (c : M S A) (k k' : A -> M S B) (s : S) :
  (forall a s1, k a s1 = k' a s1) -> bind c k s = bind c k' s.
Proof. intros H. unfold bind. destruct (c s) as [s1 [a| |msg]]; auto. Qed.

Lemma bind_Returned {S A B : Type} (c : M S A) (k : A -> M S B) (s s1 : S) (a : A) :
  c s = (s1, Returned a) -> bind c k s = k a s1.
Proof. unfold bind. now intros ->. Qed.

Lemma bind_Goexit {S A B : Type} (c : M S A) (k : A -> M S B) (s s1 : S) :
  c s = (s1, Goexit) -> bind c k s = (s1, Goexit).
Proof. unfold bind. now intros ->. Qed.

Lemma bind_Panic {S A B : Type} (c : M S A) (k : A -> M S B) (s s1 : S) msg :
  c s = (s1, Panic msg) -> bind c k s = (s1, Panic msg).
Proof. unfold bind. now intros ->. Qed.

(** *** Looking methods up *)

Implicit Types (tc rest : list (Method World)) (m h : Method World)
  (s : state World) (n : string).

Lemma MethodByName_Some tc n m :
  MethodByName tc n = Some m -> In m tc /\ Name m = n.
Proof.
  unfold MethodByName. intros H. apply find_some in H as [Hin Heq].
  split; [exact Hin | now apply String.eqb_eq].
Qed.

Lemma MethodByName_None tc n :
  MethodByName tc n = None <-> (forall m, In m tc -> Name m <> n).
Proof.
  unfold MethodByName. split.
  - intros H m Hin Heq.
    pose proof (find_none _ _ H m Hin) as Hm. simpl in Hm.
    apply String.eqb_neq in Hm. contradiction.
  - intros H. induction tc as [|m0 tc IH]; simpl; [reflexivity|].
    destruct (String.eqb (Name m0) n) eqn:E.
    + apply String.eqb_eq in E. exfalso. apply (H m0); [now left | exact E].
    + apply IH. intros m Hin. apply H. now right.
Qed.

Lemma MethodByName_In tc m :
  In m tc -> exists m', MethodByName tc (Name m) = Some m' /\ Name m' = Name m /\ In m' tc.
Proof.
  intros Hin. destruct (MethodByName tc (Name m)) as [m'|] eqn:E.
  - exists m'. apply MethodByName_Some in E as [? ?]. auto.
  - exfalso. rewrite MethodByName_None in E. now apply (E m).
Qed.

Lemma MethodByName_self tc m :
  wellFormed tc -> In m tc -> MethodByName tc (Name m) = Some m.
Proof.
  unfold wellFormed, MethodByName.
  induction tc as [|m0 tc IH]; simpl; intros Hnd Hin; [contradiction|].
  inversion Hnd as [|? ? Hnotin Hnd']; subst.
  destruct Hin as [-> | Hin].
  - now rewrite String.eqb_refl.
  - destruct (String.eqb (Name m0) (Name m)) eqn:E.
    + apply String.eqb_eq in E. exfalso. apply Hnotin. rewrite E.
      now apply in_map.
    + now apply IH.
Qed.

(** *** Prefixes *)

Lemma BeforeEach_not_BeforeAll n :
  HasPrefix n "BeforeEach" = true -> HasPrefix n "BeforeAll" = false.
Proof. intros H. apply HasPrefix_inv in H as [r ->]. reflexivity. Qed.

Lemma BeforeEach_not_Test n :
  HasPrefix n "BeforeEach" = true -> HasPrefix n "Test" = false.
Proof. intros H. apply HasPrefix_inv in H as [r ->]. reflexivity. Qed.

Lemma BeforeAll_not_Test n :
  HasPrefix n "BeforeAll" = true -> HasPrefix n "Test" = false.
Proof. intros H. apply HasPrefix_inv in H as [r ->]. reflexivity. Qed.

Lemma Test_not_BeforeEach n : HasPrefix n "Test" = true -> n <> "BeforeEach".
Proof. intros H ->. discriminate. Qed.

Lemma Test_not_BeforeAll n : HasPrefix n "Test" = true -> n <> "BeforeAll".
Proof. intros H ->. discriminate. Qed.

(** *** The first loop *)

Lemma scanHooks_from tc (be ba : bool) :
  fold_left
    (fun (flags : bool * bool) (method : Method World) =>
       let (be, ba) := flags in
       if HasPrefix (Name method) "BeforeEach" then (true, ba)
       else if HasPrefix (Name method) "BeforeAll" then (be, true)
       else (be, ba))
    tc (be, ba)
  = (be || existsb (fun m => HasPrefix (Name m) "BeforeEach") tc,
     ba || existsb (fun m => HasPrefix (Name m) "BeforeAll") tc).
Proof.
  revert be ba. induction tc as [|m tc IH]; intros be ba; simpl.
  - now rewrite !orb_false_r.
  - destruct (HasPrefix (Name m) "BeforeEach") eqn:E.
    + rewrite (BeforeEach_not_BeforeAll _ E), IH. simpl.
      now rewrite orb_true_r.
    + destruct (HasPrefix (Name m) "BeforeAll"); rewrite IH; simpl;
        [now rewrite orb_true_r | reflexivity].
Qed.

(** The flags say whether some name carries the hook's prefix. *)
Lemma scanHooks_spec tc :
  scanHooks tc
  = (existsb (fun m => HasPrefix (Name m) "BeforeEach") tc,
     existsb (fun m => HasPrefix (Name m) "BeforeAll") tc).
Proof. unfold scanHooks. now rewrite scanHooks_from. Qed.

Lemma hookFree_scanHooks tc : hookFree tc = true -> scanHooks tc = (false, false).
Proof.
  intros H. rewrite scanHooks_spec. unfold hookFree in H.
  rewrite forallb_forall in H.
  f_equal; apply not_true_is_false; intros E;
    apply existsb_exists in E as [m [Hin Hm]];
    specialize (H m Hin); apply andb_true_iff in H as [H1 H2];
    rewrite Hm in *; discriminate.
Qed.

(** *** Calls through [reflect] *)

Lemma Call_zero_arity m s :
  NumIn m = 0%nat ->
  Call (Some m) s
  = ({| calls := (calls s ++ [Name m])%list; stdout := stdout s;
        world := fst (Func m (world s)) |},
     snd (Func m (world s))).
Proof.
  intros H. unfold Call. rewrite H. simpl.
  now destruct (Func m (world s)).
Qed.

Lemma Call_other_arity m s :
  NumIn m <> 0%nat -> Call (Some m) s = (s, Panic tooFewArguments).
Proof.
  intros H. unfold Call. apply Nat.eqb_neq in H. now rewrite H.
Qed.

(** A call invokes at most the method it is made on, and does not return
    when it invokes nothing. *)
Lemma Call_cases (v : option (Method World)) s :
  exists s' o,
    Call v s = (s', o) /\ stdout s' = stdout s /\
    ((s' = s /\ o <> Returned tt) \/
     (exists m, v = Some m /\ NumIn m = 0%nat /\
                calls s' = (calls s ++ [Name m])%list /\
                o = snd (Func m (world s)))).
Proof.
  destruct v as [m|].
  - destruct (Nat.eq_dec (NumIn m) 0) as [E|E].
    + rewrite (Call_zero_arity _ _ E). do 2 eexists. split; [reflexivity|].
      split; [reflexivity|]. right. exists m. auto.
    + rewrite (Call_other_arity _ _ E). do 2 eexists. split; [reflexivity|].
      split; [reflexivity|]. left. split; [reflexivity | discriminate].
  - do 2 eexists. split; [reflexivity|]. split; [reflexivity|].
    left. split; [reflexivity | discriminate].
Qed.

Lemma skipn_calls (a b : list string) : skipn (length a) (a ++ b) = b.
Proof. induction a; simpl; auto. Qed.

Lemma newCalls_app s s' (new : list string) :
  calls s' = (calls s ++ new)%list -> newCalls s s' = new.
Proof. unfold newCalls. intros ->. apply skipn_calls. Qed.

(** *** The second loop *)

Lemma runTests_app tc (a b : list (Method World)) be s :
  runTests tc (a ++ b) be s = bind (runTests tc a be) (fun _ => runTests tc b be) s.
Proof.
  revert s. induction a as [|m a IH]; intros s; simpl.
  - reflexivity.
  - rewrite bind_assoc. apply bind_ext. intros _ s1. apply IH.
Qed.

(** A method that is no test is passed over. *)
Lemma runTest_skip tc be m s :
  HasPrefix (Name m) "Test" = false -> runTest tc be m s = (s, Returned tt).
Proof. unfold runTest. now intros ->. Qed.

(** One turn of the loop invokes the per-test hook and the test, in this
    order, or a beginning of that. *)
Lemma runTest_cases tc be m s :
  exists s' o new,
    runTest tc be m s = (s', o) /\
    calls s' = (calls s ++ new)%list /\ stdout s' = stdout s /\
    Forall (fun n => n = "BeforeEach" \/ (n = Name m /\ HasPrefix n "Test" = true)) new.
Proof.
  unfold runTest. destruct (HasPrefix (Name m) "Test") eqn:Ht.
  - assert (Hhook : exists s1 o1 new1,
               (if be then Call (MethodByName tc "BeforeEach") else ret tt) s = (s1, o1) /\
               calls s1 = (calls s ++ new1)%list /\ stdout s1 = stdout s /\
               Forall (fun n => n = "BeforeEach") new1).
    { destruct be.
      - destruct (Call_cases (MethodByName tc "BeforeEach") s)
          as (s1 & o1 & E & Hout & [[-> _] | (h & Hh & _ & Hc & _)]).
        + exists s, o1, []. rewrite app_nil_r. auto.
        + exists s1, o1, [Name h]. apply MethodByName_Some in Hh as [_ Hn].
          rewrite Hn in *. auto.
      - exists s, (Returned tt), []. rewrite app_nil_r. auto. }
    destruct Hhook as (s1 & o1 & new1 & E1 & Hc1 & Hout1 & Hall1).
    unfold bind. rewrite E1.
    assert (Hweak : Forall (fun n => n = "BeforeEach" \/
                                     (n = Name m /\ HasPrefix n "Test" = true)) new1)
      by (eapply Forall_impl; [|exact Hall1]; simpl; auto).
    destruct o1 as [[]| |msg];
      [| exists s1, Goexit, new1; auto | exists s1, (Panic msg), new1; auto].
    destruct (Call_cases (MethodByName tc (Name m)) s1)
      as (s2 & o2 & E2 & Hout2 & [[-> _] | (m' & Hm' & _ & Hc2 & _)]).
    + exists s1, o2, new1. auto.
    + exists s2, o2, (new1 ++ [Name m'])%list.
      apply MethodByName_Some in Hm' as [_ Hn].
      repeat split; [exact E2 | | congruence |].
      * rewrite Hc2, Hc1. now rewrite app_assoc.
      * apply Forall_app. split; [exact Hweak|].
        constructor; [|constructor]. right. rewrite Hn. auto.
  - exists s, (Returned tt), []. rewrite app_nil_r. auto.
Qed.

(** Whatever happens, the second loop invokes only the per-test hook and
    methods it selected as tests. *)
Lemma runTests_invokes tc rest be s :
  exists s' o new,
    runTests tc rest be s = (s', o) /\
    calls s' = (calls s ++ new)%list /\ stdout s' = stdout s /\
    Forall (fun n => n = "BeforeEach" \/
                     (In n (map Name rest) /\ HasPrefix n "Test" = true)) new.
Proof.
  revert s. induction rest as [|m rest IH]; intros s; simpl.
  - exists s, (Returned tt), []. rewrite app_nil_r. auto.
  - destruct (runTest_cases tc be m s) as (s1 & o1 & new1 & E1 & Hc1 & Hout1 & Hall1).
    assert (Hweak : Forall (fun n => n = "BeforeEach" \/
                         (In n (Name m :: map Name rest) /\ HasPrefix n "Test" = true)) new1).
    { eapply Forall_impl; [|exact Hall1]. simpl. intros n [?|[? ?]]; auto. }
    unfold bind. rewrite E1.
    destruct o1 as [[]| |msg];
      [| exists s1, Goexit, new1; auto | exists s1, (Panic msg), new1; auto].
    destruct (IH s1) as (s2 & o2 & new2 & E2 & Hc2 & Hout2 & Hall2).
    exists s2, o2, (new1 ++ new2)%list. repeat split; [exact E2 | | congruence |].
    + rewrite Hc2, Hc1. now rewrite app_assoc.
    + apply Forall_app. split; [exact Hweak|].
      eapply Forall_impl; [|exact Hall2]. simpl. intros n [?|[? ?]]; auto.
Qed.

(** Without tests among [rest], the second loop changes nothing. *)
Lemma runTests_no_tests tc rest be s :
  testNames rest = [] -> runTests tc rest be s = (s, Returned tt).
Proof.
  unfold testNames. revert s. induction rest as [|m rest IH]; intros s H; simpl in *.
  - reflexivity.
  - destruct (HasPrefix (Name m) "Test") eqn:Ht; [discriminate|].
    unfold bind. rewrite (runTest_skip _ _ _ _ Ht). now apply IH.
Qed.

Lemma Call_returns m s :
  NumIn m = 0%nat -> returns m ->
  Call (Some m) s
  = ({| calls := (calls s ++ [Name m])%list; stdout := stdout s;
        world := fst (Func m (world s)) |},
     Returned tt).
Proof. intros Ha Hr. rewrite (Call_zero_arity _ _ Ha). now rewrite Hr. Qed.

Lemma Call_exits m s :
  NumIn m = 0%nat -> exits m ->
  Call (Some m) s
  = ({| calls := (calls s ++ [Name m])%list; stdout := stdout s;
        world := fst (Func m (world s)) |},
     Goexit).
Proof. intros Ha Hr. rewrite (Call_zero_arity _ _ Ha). now rewrite Hr. Qed.

Lemma testNames_cons m rest :
  testNames (m :: rest)
  = if HasPrefix (Name m) "Test" then Name m :: testNames rest else testNames rest.
Proof. reflexivity. Qed.

Lemma testNames_app (a b : list (Method World)) :
  testNames (a ++ b) = (testNames a ++ testNames b)%list.
Proof. unfold testNames. now rewrite map_app, filter_app. Qed.

Lemma testNames_In rest n :
  In n (testNames rest) <-> In n (map Name rest) /\ HasPrefix n "Test" = true.
Proof. unfold testNames. rewrite filter_In. reflexivity. Qed.

(** One turn of the loop on a test, when the hook (if any) and the test
    return. *)
Lemma runTest_returns tc be m s :
  (be = true ->
   exists h, MethodByName tc "BeforeEach" = Some h /\ NumIn h = 0%nat /\ returns h) ->
  HasPrefix (Name m) "Test" = true ->
  (exists m', MethodByName tc (Name m) = Some m' /\ NumIn m' = 0%nat /\ returns m') ->
  exists s',
    runTest tc be m s = (s', Returned tt) /\
    calls s' = (calls s ++ round be (Name m))%list /\ stdout s' = stdout s.
Proof.
  intros Hhook Ht (m' & Hm' & Ha & Hr).
  pose proof (MethodByName_Some _ _ _ Hm') as [_ Hn].
  unfold runTest. rewrite Ht, Hm'. destruct be.
  - destruct (Hhook eq_refl) as (h & Hh & Hah & Hrh).
    pose proof (MethodByName_Some _ _ _ Hh) as [_ Hnh].
    rewrite Hh. unfold bind. rewrite (Call_returns _ _ Hah Hrh).
    rewrite (Call_returns _ _ Ha Hr). simpl.
    eexists. split; [reflexivity|]. simpl. split; [|reflexivity].
    rewrite Hn, Hnh, <- app_assoc. reflexivity.
  - rewrite bind_ret, (Call_returns _ _ Ha Hr).
    eexists. split; [reflexivity|]. simpl. now rewrite Hn.
Qed.

(** The second loop when every hook call and every test returns: the
    rounds of all tests, in the order of enumeration. *)
Lemma runTests_returns tc rest be s :
  (be = true ->
   exists h, MethodByName tc "BeforeEach" = Some h /\ NumIn h = 0%nat /\ returns h) ->
  (forall m, In m rest -> HasPrefix (Name m) "Test" = true ->
             exists m', MethodByName tc (Name m) = Some m' /\ NumIn m' = 0%nat /\ returns m') ->
  exists s',
    runTests tc rest be s = (s', Returned tt) /\
    calls s' = (calls s ++ rounds be (testNames rest))%list /\ stdout s' = stdout s.
Proof.
  intros Hhook. revert s. induction rest as [|m rest IH]; intros s Hall.
  - exists s. simpl. rewrite app_nil_r. auto.
  - simpl. rewrite testNames_cons. unfold bind.
    destruct (HasPrefix (Name m) "Test") eqn:Ht.
    + destruct (runTest_returns tc be m s Hhook Ht) as (s1 & E1 & Hc1 & Ho1).
      { apply Hall; [now left | exact Ht]. }
      rewrite E1.
      destruct (IH s1) as (s2 & E2 & Hc2 & Ho2).
      { intros m0 Hin. apply Hall. now right. }
      exists s2. split; [exact E2|]. split; [|congruence].
      rewrite Hc2, Hc1. unfold rounds. simpl. now rewrite app_assoc.
    + rewrite (runTest_skip _ _ _ _ Ht).
      apply IH. intros m0 Hin. apply Hall. now right.
Qed.

Lemma count_occ_filter (f : string -> bool) (l : list string) (x : string) :
  count_occ string_dec (filter f l) x
  = if f x then count_occ string_dec l x else 0%nat.
Proof.
  induction l as [|y l IH]; simpl.
  - now destruct (f x).
  - destruct (f y) eqn:Fy; simpl; destruct (string_dec y x) as [->|Hne].
    + rewrite Fy, IH, Fy. reflexivity.
    + exact IH.
    + rewrite Fy in *. exact IH.
    + exact IH.
Qed.

(** *** Dispatch without hooks *)

(** The state after the banner is printed. *)
Lemma Printf_bind {A : Type} (text : string) (k : unit -> M (state World) A) s :
  bind (Printf text) k s
  = k tt {| calls := calls s; stdout := (stdout s ++ [text])%list; world := world s |}.
Proof. reflexivity. Qed.

Lemma Run_hookFree tc s :
  hookFree tc = true ->
  Run tc s
  = runTests tc tc false
      {| calls := calls s; stdout := (stdout s ++ [banner])%list; world := world s |}.
Proof.
  intros Hfree. unfold Run. rewrite (hookFree_scanHooks _ Hfree).
  rewrite bind_ret. apply Printf_bind.
Qed.


(** *** Dispatch in general *)

(** The state in which the second loop starts. *)
Lemma Run_cases tc s :
  exists s1 o1 new1,
    calls s1 = (calls s ++ new1)%list /\
    (new1 = [] \/ new1 = ["BeforeAll"]) /\
    (o1 <> Returned tt -> Run tc s = (s1, o1)) /\
    (o1 = Returned tt ->
     Run tc s
     = runTests tc tc (fst (scanHooks tc))
         {| calls := calls s1; stdout := (stdout s1 ++ [banner])%list;
            world := world s1 |}).
Proof.
  unfold Run. destruct (scanHooks tc) as [be ba]. simpl. destruct ba.
  - destruct (Call_cases (MethodByName tc "BeforeAll") s)
      as (s1 & o1 & E & _ & Hcase).
    exists s1, o1.
    assert (Hrun : (o1 <> Returned tt ->
                    bind (Call (MethodByName tc "BeforeAll"))
                      (fun _ => bind (Printf banner) (fun _ => runTests tc tc be)) s
                    = (s1, o1)) /\
                   (o1 = Returned tt ->
                    bind (Call (MethodByName tc "BeforeAll"))
                      (fun _ => bind (Printf banner) (fun _ => runTests tc tc be)) s
                    = runTests tc tc be
                        {| calls := calls s1; stdout := (stdout s1 ++ [banner])%list;
                           world := world s1 |})).
    { unfold bind at 1 3. rewrite E. split.
      - destruct o1 as [[]| |msg]; [congruence | reflexivity ..].
      - intros ->. apply Printf_bind. }
    destruct Hrun as [Hstop Hgo].
    destruct Hcase as [[-> _] | (h & Hh & _ & Hc & _)].
    + exists []. rewrite app_nil_r. auto.
    + exists [Name h]. apply MethodByName_Some in Hh as [_ Hn].
      rewrite Hn in *. auto.
  - exists s, (Returned tt), []. rewrite app_nil_r.
    split; [reflexivity|]. split; [now left|]. split; [congruence|].
    intros _. rewrite bind_ret. apply Printf_bind.
Qed.

(** A test that leaves through [runtime.Goexit] takes its turn of the loop
    with it. *)
Lemma runTest_does_not_return tc be m s :
  HasPrefix (Name m) "Test" = true ->
  MethodByName tc (Name m) = Some m ->
  exits m ->
  snd (runTest tc be m s) <> Returned tt.
Proof.
  intros Ht Hm Hex. unfold runTest. rewrite Ht, Hm. unfold bind.
  destruct ((if be then Call (MethodByName tc "BeforeEach") else ret tt) s)
    as [s1 [[]| |msg]]; cbv beta iota; try (simpl; discriminate).
  destruct (Nat.eq_dec (NumIn m) 0) as [E|E].
  - rewrite (Call_exits _ _ E Hex). discriminate.
  - rewrite (Call_other_arity _ _ E). discriminate.
Qed.

(** The second loop does not get past a test that leaves through
    [runtime.Goexit]. *)
Lemma runTests_stops tc pre m post be s :
  HasPrefix (Name m) "Test" = true ->
  MethodByName tc (Name m) = Some m ->
  exits m ->
  exists s' o new,
    runTests tc (pre ++ m :: post) be s = (s', o) /\
    o <> Returned tt /\
    calls s' = (calls s ++ new)%list /\
    Forall (fun n => n = "BeforeEach" \/ In n (map Name (pre ++ [m]))) new.
Proof.
  intros Ht Hm Hex. rewrite runTests_app.
  destruct (runTests_invokes tc pre be s) as (s1 & o1 & new1 & E1 & Hc1 & _ & Hall1).
  assert (Hweak1 : Forall (fun n => n = "BeforeEach" \/ In n (map Name (pre ++ [m]))) new1).
  { eapply Forall_impl; [|exact Hall1]. simpl. intros n [?|[Hin _]]; auto.
    right. rewrite map_app. apply in_or_app. now left. }
  unfold bind at 1. rewrite E1.
  destruct o1 as [[]| |msg];
    [| exists s1, Goexit, new1; repeat split; auto; discriminate
     | exists s1, (Panic msg), new1; repeat split; auto; discriminate].
  simpl.
  destruct (runTest_cases tc be m s1) as (s2 & o2 & new2 & E2 & Hc2 & _ & Hall2).
  pose proof (runTest_does_not_return tc be m s1 Ht Hm Hex) as Hno.
  rewrite E2 in Hno. simpl in Hno.
  exists s2, o2, (new1 ++ new2)%list.
  unfold bind. rewrite E2. repeat split.
  - destruct o2 as [[]| |msg]; [contradiction | reflexivity ..].
  - exact Hno.
  - rewrite Hc2, Hc1. now rewrite app_assoc.
  - apply Forall_app. split; [exact Hweak1|].
    eapply Forall_impl; [|exact Hall2]. simpl. intros n [?|[-> _]]; auto.
    right. rewrite map_app. apply in_or_app. right. now left.
Qed.

Lemma NoDup_app_disjoint (a b : list string) (x : string) :
  NoDup (a ++ b) -> In x b -> ~ In x a.
Proof.
  induction a as [|y a IH]; simpl; intros Hnd Hb Ha; [contradiction|].
  inversion Hnd as [|? ? Hnotin Hnd']; subst.
  destruct Ha as [-> | Ha].
  - apply Hnotin. apply in_or_app. now right.
  - now apply (IH Hnd' Hb).
Qed.


(** *** The per-test hook *)

(** One turn of the loop on a test when the hook returns: the hook, then
    the test, however the test ends. *)
Lemma runTest_hooked tc m h s :
  MethodByName tc "BeforeEach" = Some h -> NumIn h = 0%nat -> returns h ->
  HasPrefix (Name m) "Test" = true ->
  (exists m', MethodByName tc (Name m) = Some m' /\ NumIn m' = 0%nat) ->
  exists s' o,
    runTest tc true m s = (s', o) /\
    calls s' = (calls s ++ ["BeforeEach"; Name m])%list.
Proof.
  intros Hh Hah Hrh Ht (m' & Hm' & Ha).
  pose proof (MethodByName_Some _ _ _ Hm') as [_ Hn].
  pose proof (MethodByName_Some _ _ _ Hh) as [_ Hnh].
  unfold runTest. rewrite Ht, Hh, Hm'.
  rewrite (bind_Returned _ _ _ _ _ (Call_returns _ _ Hah Hrh)).
  rewrite (Call_zero_arity _ _ Ha). do 2 eexists. split; [reflexivity|].
  simpl. rewrite Hn, Hnh, <- app_assoc. reflexivity.
Qed.

(** The second loop when the hook returns: full rounds for the tests it
    got to, which are all of them if it returns. *)
Lemma runTests_hooked tc rest h s :
  MethodByName tc "BeforeEach" = Some h -> NumIn h = 0%nat -> returns h ->
  (forall m, In m rest -> HasPrefix (Name m) "Test" = true ->
             exists m', MethodByName tc (Name m) = Some m' /\ NumIn m' = 0%nat) ->
  exists s' o ts later,
    runTests tc rest true s = (s', o) /\
    testNames rest = (ts ++ later)%list /\
    calls s' = (calls s ++ rounds true ts)%list /\
    (o = Returned tt -> later = []).
Proof.
  intros Hh Hah Hrh. revert s. induction rest as [|m rest IH]; intros s Hall.
  - exists s, (Returned tt), [], []. simpl. rewrite app_nil_r. auto.
  - simpl. rewrite testNames_cons. destruct (HasPrefix (Name m) "Test") eqn:Ht.
    + destruct (runTest_hooked tc m h s Hh Hah Hrh Ht) as (s1 & o1 & E1 & Hc1).
      { apply Hall; [now left | exact Ht]. }
      destruct o1 as [[]| |msg].
      * rewrite (bind_Returned _ _ _ _ _ E1).
        destruct (IH s1) as (s2 & o2 & ts & later & E2 & Hts & Hc2 & Hret).
        { intros m0 Hin. apply Hall. now right. }
        exists s2, o2, (Name m :: ts), later. rewrite E2, Hts.
        repeat split; [|exact Hret].
        rewrite Hc2, Hc1. simpl. now rewrite <- app_assoc.
      * rewrite (bind_Goexit _ _ _ _ E1).
        exists s1, Goexit, [Name m], (testNames rest).
        repeat split; [|discriminate]. rewrite Hc1. reflexivity.
      * rewrite (bind_Panic _ _ _ _ _ E1).
        exists s1, (Panic msg), [Name m], (testNames rest).
        repeat split; [|discriminate]. rewrite Hc1. reflexivity.
    + rewrite (bind_Returned _ _ _ _ _ (runTest_skip _ _ _ _ Ht)).
      apply IH. intros m0 Hin. apply Hall. now right.
Qed.

Lemma rounds_hooked_count (ts : list string) :
  Forall (fun n => HasPrefix n "Test" = true) ts ->
  count_occ string_dec (rounds true ts) "BeforeEach" = length ts /\
  filter (fun n => HasPrefix n "Test") (rounds true ts) = ts.
Proof.
  induction 1 as [|t ts Ht _ [IHc IHf]]; [split; reflexivity|].
  unfold rounds in *. cbn [flat_map round app count_occ filter length].
  destruct (string_dec "BeforeEach" "BeforeEach") as [_|Hne]; [|congruence].
  destruct (string_dec t "BeforeEach") as [E|_].
  { exfalso. revert E. now apply Test_not_BeforeEach. }
  rewrite Ht. change (HasPrefix "BeforeEach" "Test") with false. cbv iota.
  split; [now rewrite IHc | now rewrite IHf].
Qed.


(** *** Hooks whose name extends the prefix *)

Lemma hasNamed_MethodByName tc n :
  hasNamed n tc = false -> MethodByName tc n = None.
Proof.
  unfold hasNamed, MethodByName. induction tc as [|m tc IH]; simpl; [reflexivity|].
  destruct (String.eqb (Name m) n); simpl; [discriminate | exact IH].
Qed.

(** With the per-test hook flagged and no method of that exact name, the
    second loop panics at its first test, before invoking anything. *)
Lemma runTests_zero_hook tc rest s :
  MethodByName tc "BeforeEach" = None ->
  hasPrefixed "Test" rest = true ->
  runTests tc rest true s = (s, Panic zeroValueCall).
Proof.
  intros Hnone. unfold hasPrefixed. revert s.
  induction rest as [|m rest IH]; intros s H; simpl in H; [discriminate|].
  simpl. destruct (HasPrefix (Name m) "Test") eqn:Ht.
  - apply bind_Panic. unfold runTest. rewrite Ht, Hnone. now apply bind_Panic.
  - rewrite (bind_Returned _ _ _ _ _ (runTest_skip _ _ _ _ Ht)). now apply IH.
Qed.

(** C9: hooks are detected by prefix and invoked by exact name.  On a
    test-case value with an operation whose name starts with [BeforeAll]
    but none named exactly [BeforeAll], and likewise for [BeforeEach] when
    there is a test to run (and no once-only hook before it), [Run] calls
    the zero [Value] that [MethodByName] returned: it panics, having
    invoked no operation. *)
Theorem Run_panics_on_extended_hook_name (tc : list (Method World)) (s : state World) :
  (hasPrefixed "BeforeAll" tc = true /\ hasNamed "BeforeAll" tc = false) \/
  (hasPrefixed "BeforeEach" tc = true /\ hasNamed "BeforeEach" tc = false /\
   hasPrefixed "BeforeAll" tc = false /\ hasPrefixed "Test" tc = true) ->
  snd (Run tc s) = Panic zeroValueCall /\
  invoked tc s = [] /\
  world (fst (Run tc s)) = world s.
Proof.
  intros H.
  assert (E : exists out, Run tc s
                          = ({| calls := calls s; stdout := out; world := world s |},
                             Panic zeroValueCall)).
  { unfold Run. rewrite scanHooks_spec. fold (hasPrefixed "BeforeEach" tc).
    fold (hasPrefixed "BeforeAll" tc).
    destruct H as [[Hp Hn] | (Hp & Hn & Hba & Ht)].
    - rewrite Hp, (hasNamed_MethodByName _ _ Hn).
      exists (stdout s). rewrite (bind_Panic _ _ s s zeroValueCall); [|reflexivity].
      now destruct s.
    - rewrite Hp, Hba, bind_ret, Printf_bind.
      rewrite (runTests_zero_hook _ _ _ (hasNamed_MethodByName _ _ Hn) Ht).
      eexists. reflexivity. }
  destruct E as [out E]. unfold invoked. rewrite E. simpl.
  repeat split. apply newCalls_app. simpl. now rewrite app_nil_r.
Qed.

(** *** The once-only hook under its exact name *)

(** X7: an operation named exactly [BeforeAll] that takes no argument is
    invoked first, and once, whatever it and the other operations do. *)
Lemma Run_BeforeAll_first tc h s :
  MethodByName tc "BeforeAll" = Some h ->
  NumIn h = 0%nat ->
  exists later, invoked tc s = "BeforeAll" :: later /\ ~ In "BeforeAll" later.
Proof.
  intros Hh Ha.
  pose proof (MethodByName_Some _ _ _ Hh) as [Hin Hn].
  assert (Hba : snd (scanHooks tc) = true).
  { rewrite scanHooks_spec. simpl. apply existsb_exists. exists h.
    split; [exact Hin | now rewrite Hn]. }
  unfold invoked, Run. destruct (scanHooks tc) as [be ba]. simpl in Hba. subst ba.
  rewrite Hh. unfold bind at 1. rewrite (Call_zero_arity _ _ Ha), Hn.
  set (s1 := {| calls := (calls s ++ ["BeforeAll"])%list; stdout := stdout s;
                world := fst (Func h (world s)) |}).
  destruct (snd (Func h (world s))) as [[]| |msg].
  - rewrite Printf_bind.
    match goal with |- context [runTests tc tc be ?x] => set (s2 := x) end.
    destruct (runTests_invokes tc tc be s2) as (s' & o & new & E & Hc & _ & Hall).
    rewrite E. simpl. exists new. split.
    + apply newCalls_app. rewrite Hc. simpl. now rewrite <- app_assoc.
    + intros Hnew. rewrite Forall_forall in Hall.
      destruct (Hall _ Hnew) as [? | [_ ?]]; discriminate.
  - exists []. split; [now apply newCalls_app | auto].
  - exists []. split; [now apply newCalls_app | auto].
Qed.

End DispatcherFacts.

(** C10: [Run] selects tests by the plain prefix ["Test"], not by [isTest].
    A method named [Testicular] starts with ["Test"] and is rejected by
    [isTest], yet [Run] invokes it as a test, whatever it does. *)
Theorem Run_selects_by_plain_prefix (LowerTable : Z -> bool) (World : Type)
    (body : M World unit) (s : state World) :
  HasPrefix "Testicular" "Test" = true /\
  isTest LowerTable "Testicular" "Test" = false /\
  invoked [{| Name := "Testicular"; NumIn := 0; Func := body |}] s = ["Testicular"].
Proof.
  split; [reflexivity|]. split; [reflexivity|].
  unfold invoked. rewrite Run_hookFree by reflexivity.
  cbn [runTests]. unfold runTest. cbn [Name].
  change (HasPrefix "Testicular" "Test") with true. cbv iota.
  unfold bind, ret.
  change (MethodByName [{| Name := "Testicular"; NumIn := 0; Func := body |}] "Testicular")
    with (Some {| Name := "Testicular"; NumIn := 0; Func := body |}).
  rewrite Call_zero_arity by reflexivity.
  cbn [Name Func world calls stdout].
  destruct (body (world s)) as [w [[]| |msg]]; cbn [fst snd];
    apply newCalls_app; reflexivity.
Qed.

(** C5, at the failing input: the once-only hook is called [BeforeAllSetup].
    [Run] flags the hook, looks up [BeforeAll], and panics on the zero
    [Value]: neither the hook nor the test is invoked. *)
Theorem Run_BeforeAllSetup_panics :
  hasPrefixed "BeforeAll" longBeforeAll = true /\
  Run longBeforeAll fresh = (fresh, Panic zeroValueCall) /\
  invoked longBeforeAll fresh = [].
Proof. repeat split. Qed.

(** ** The failure-site resolver *)

Lemma Split_not_nil (s : string) (sep : ascii) : Split s sep <> [].
Proof.
  induction s as [|c s IH]; simpl; [discriminate|].
  destruct (Ascii.eqb c sep); [discriminate|].
  destruct (Split s sep); [contradiction | discriminate].
Qed.

Lemma index_last {A : Type} (l : list A) (d : A) :
  l <> [] -> index l (Z.of_nat (length l) - 1) = Some (last l d).
Proof.
  intros Hne. unfold index.
  destruct (Z.ltb_spec (Z.of_nat (length l) - 1) 0) as [Hlt|_].
  - destruct l; [contradiction | simpl length in Hlt; lia].
  - replace (Z.to_nat (Z.of_nat (length l) - 1)) with (length l - 1)%nat by lia.
    clear - Hne. induction l as [|x l IH]; [contradiction|].
    destruct l as [|y l]; [reflexivity|].
    change (last (x :: y :: l) d) with (last (y :: l) d).
    rewrite <- IH by discriminate. simpl. now rewrite Nat.sub_0_r.
Qed.

Section ResolverFacts.

Variable LowerTable : Z -> bool.

Lemma afterLoop_last (callers : list string) :
  afterLoop callers = Returned (last callers "").
Proof.
  unfold afterLoop. destruct callers as [|c callers]; [reflexivity|].
  replace (0 <? Z.of_nat (length (c :: callers))) with true
    by (symmetry; apply Z.ltb_lt; simpl length; lia).
  now rewrite (index_last _ "") by discriminate.
Qed.

(** The sentinel ends the walk before the frame is looked at. *)
Lemma visit_sentinel (f : Frame) (callers : list string) :
  sentinel f = true -> visit LowerTable f callers = Break callers.
Proof. unfold visit, sentinel. now intros ->. Qed.

(** A frame whose file lies in a directory adds its token unless it is
    excluded, and ends the walk if it is a boundary. *)
Lemma visit_frame (f : Frame) (callers : list string) (dir : string) :
  sentinel f = false ->
  dirOf f = Some dir ->
  visit LowerTable f callers
  = let callers' := if excluded f then callers else (callers ++ [token f])%list in
    if boundary LowerTable f then Break callers' else Continue callers'.
Proof.
  intros Hs Hd. unfold visit. unfold sentinel in Hs. rewrite Hs.
  unfold excluded, internal. rewrite Hd. unfold dirOf in Hd. rewrite Hd.
  rewrite (index_last _ "") by apply Split_not_nil.
  fold (baseOf f). fold (token f).
  replace ((negb (String.eqb dir "assert") && negb (String.eqb dir "mock")
            && negb (String.eqb dir "require"))
           || String.eqb (baseOf f) "mock_test.go")
    with (negb (internalDir dir && negb (String.eqb (baseOf f) "mock_test.go")))
    by (unfold internalDir;
        destruct (String.eqb dir "assert"), (String.eqb dir "mock"),
          (String.eqb dir "require"), (String.eqb (baseOf f) "mock_test.go");
        reflexivity).
  unfold boundary, funcOf.
  destruct (internalDir dir && negb (String.eqb (baseOf f) "mock_test.go"));
    cbn [negb]; cbv zeta;
    (destruct (pc_func f) as [fname|]; cbn [option_map]; [|reflexivity]);
    rewrite (index_last _ "") by apply Split_not_nil;
    fold (shortName fname); reflexivity.
Qed.

(** A frame whose file has no directory part makes the resolver panic. *)
Lemma visit_crash (f : Frame) (callers : list string) :
  sentinel f = false ->
  dirOf f = None ->
  exists msg, visit LowerTable f callers = Crash msg.
Proof.
  intros Hs Hd. unfold visit. unfold sentinel in Hs. rewrite Hs.
  unfold dirOf in Hd. rewrite Hd. eexists. reflexivity.
Qed.

(** What the loop computes from the tokens accumulated before. *)
Lemma walk_answer (frames : list Frame) (callers : list string) :
  Forall (fun f => dirOf f <> None) (fst (walked LowerTable frames)) ->
  walk LowerTable frames callers
  = Returned
      (if snd (walked LowerTable frames)
       then last (callers ++ filtered LowerTable frames) ""
       else "").
Proof.
  unfold filtered. revert callers.
  induction frames as [|f frames IH]; intros callers Hdirs; simpl.
  - reflexivity.
  - destruct (sentinel f) eqn:Hs.
    + rewrite (visit_sentinel _ _ Hs). simpl. rewrite app_nil_r.
      apply afterLoop_last.
    + assert (Hd : exists dir, dirOf f = Some dir).
      { simpl in Hdirs. rewrite Hs in Hdirs.
        destruct (boundary LowerTable f);
          [|destruct (walked LowerTable frames)];
          simpl in Hdirs; inversion Hdirs as [|? ? Hf _]; subst;
          destruct (dirOf f) as [dir|]; [eauto | contradiction | eauto | contradiction]. }
      destruct Hd as [dir Hd]. rewrite (visit_frame _ _ _ Hs Hd). cbv zeta.
      destruct (boundary LowerTable f) eqn:Hb.
      * rewrite afterLoop_last. simpl.
        destruct (excluded f); simpl; [now rewrite app_nil_r | reflexivity].
      * simpl in Hdirs. rewrite Hs, Hb in Hdirs.
        destruct (walked LowerTable frames) as [seen stopped] eqn:Hw.
        simpl in Hdirs. inversion Hdirs as [|? ? _ Hrest]; subst.
        rewrite IH by exact Hrest. simpl.
        destruct (excluded f); simpl; [reflexivity|].
        now rewrite <- app_assoc.
Qed.

(** The loop, turn by turn: turn [i] asks [runtime.Caller(i)]. *)
Lemma walk_Caller (stack : list Frame) (i : nat) (callers : list string) :
  walk LowerTable (skipn i stack) callers
  = match Caller stack i with
    | None => Returned ""
    | Some f =>
        match visit LowerTable f callers with
        | Continue callers' => walk LowerTable (skipn (S i) stack) callers'
        | Break callers' => afterLoop callers'
        | Crash msg => Panic msg
        end
    end.
Proof.
  unfold Caller. revert stack. induction i as [|i IH]; intros [|f stack];
    try reflexivity.
  apply (IH stack).
Qed.

(** C2, amended: on every call stack whose walked frames have a directory
    part in their file path, the resolver returns the last token of the
    filtered frame list, or the empty string if the list is empty, when the
    walk is stopped (at the sentinel or at a boundary frame), and the empty
    string, whatever was accumulated, when the walk runs off the end of the
    stack; on a call chain whose walked frames are all excluded the result
    is empty. *)
Theorem CallerInfo_answer (stack : list Frame) :
  Forall (fun f => dirOf f <> None) (fst (walked LowerTable stack)) ->
  CallerInfo LowerTable stack
  = Returned
      (if snd (walked LowerTable stack)
       then last (filtered LowerTable stack) ""
       else "") /\
  (forallb excluded (fst (walked LowerTable stack)) = true ->
   filtered LowerTable stack = [] /\ CallerInfo LowerTable stack = Returned "").
Proof.
  intros Hdirs. unfold CallerInfo.
  rewrite (walk_answer stack [] Hdirs). simpl. split; [reflexivity|].
  intros Hall.
  assert (Hnone : filtered LowerTable stack = []).
  { unfold filtered. rewrite forallb_forall in Hall.
    induction (fst (walked LowerTable stack)) as [|f l IH]; [reflexivity|].
    simpl. rewrite (Hall f) by now left. simpl.
    apply IH; [now inversion Hdirs | intros x Hx; apply Hall; now right]. }
  split; [exact Hnone|]. rewrite Hnone.
  now destruct (snd (walked LowerTable stack)).
Qed.

(** The walk passes over internal frames inside helper functions. *)
Lemma walk_inner (inner rest : list Frame) (callers : list string) :
  forallb (fun f => internal f && inHelper LowerTable f) inner = true ->
  exists callers',
    walk LowerTable (inner ++ rest) callers = walk LowerTable rest callers'.
Proof.
  revert callers. induction inner as [|f inner IH]; intros callers H.
  - now exists callers.
  - simpl in H. apply andb_true_iff in H as [Hf Hinner].
    apply andb_true_iff in Hf as [Hint Hhelp].
    assert (Hd : exists dir, dirOf f = Some dir).
    { unfold internal in Hint. destruct (dirOf f); [eauto | discriminate]. }
    destruct Hd as [dir Hd].
    assert (Hs : sentinel f = false).
    { unfold sentinel. destruct (String.eqb (pc_file f) "<autogenerated>") eqn:E;
        [|reflexivity].
      apply String.eqb_eq in E. unfold dirOf in Hd. rewrite E in Hd. discriminate. }
    assert (Hb : boundary LowerTable f = false).
    { unfold boundary. unfold inHelper in Hhelp.
      destruct (funcOf f); [now apply negb_true_iff | discriminate]. }
    cbn [walk app]. rewrite (visit_frame _ _ _ Hs Hd), Hb. cbv zeta.
    apply IH. exact Hinner.
Qed.


End ResolverFacts.

(** ** The theorems at work on the sample inputs *)

Lemma firstFails_wellFormed : wellFormed firstFails.
Proof.
  unfold wellFormed. simpl. repeat constructor; simpl; intuition discriminate.
Qed.







Lemma Run_panics_on_extended_hook_name_witness :
  (hasPrefixed "BeforeAll" longBeforeAll = true /\
   hasNamed "BeforeAll" longBeforeAll = false) /\
  snd (Run longBeforeAll fresh) = Panic zeroValueCall /\
  (hasPrefixed "BeforeEach" longBeforeEach = true /\
   hasNamed "BeforeEach" longBeforeEach = false /\
   hasPrefixed "BeforeAll" longBeforeEach = false /\
   hasPrefixed "Test" longBeforeEach = true) /\
  snd (Run longBeforeEach fresh) = Panic zeroValueCall /\
  invoked longBeforeEach fresh = [].
Proof.
  assert (Ha : hasPrefixed "BeforeAll" longBeforeAll = true /\
               hasNamed "BeforeAll" longBeforeAll = false) by (split; reflexivity).
  assert (He : hasPrefixed "BeforeEach" longBeforeEach = true /\
               hasNamed "BeforeEach" longBeforeEach = false /\
               hasPrefixed "BeforeAll" longBeforeEach = false /\
               hasPrefixed "Test" longBeforeEach = true) by (repeat split; reflexivity).
  destruct (Run_panics_on_extended_hook_name longBeforeAll fresh (or_introl Ha))
    as (Hpa & _ & _).
  destruct (Run_panics_on_extended_hook_name longBeforeEach fresh (or_intror He))
    as (Hpe & Hne & _).
  split; [exact Ha|]. split; [exact Hpa|]. split; [exact He|].
  split; [exact Hpe | exact Hne].
Defined.

Lemma CallerInfo_answer_witness :
  Forall (fun f => dirOf f <> None) (fst (walked asciiLower (stackUnder "TestA" 12))) /\
  CallerInfo asciiLower (stackUnder "TestA" 12) = Returned "suite_test.go:12".
Proof.
  assert (H : Forall (fun f => dirOf f <> None)
                (fst (walked asciiLower (stackUnder "TestA" 12)))).
  { vm_compute. repeat constructor; discriminate. }
  split; [exact H|].
  destruct (CallerInfo_answer asciiLower (stackUnder "TestA" 12) H) as [E _].
  rewrite E. reflexivity.
Defined.

Example goroutineStack_filtered :
  filtered asciiLower goroutineStack
  = ["asserting.go:251"; "asserting.go:77"; "suite_test.go:15"; "asm_amd64.s:1650"] /\
  CallerInfo asciiLower goroutineStack = Returned "".
Proof. split; reflexivity. Qed.

(** C2, as the specification words it, fails: an assertion failing on a
    goroutine with no entry point on its stack.  The walk accumulates four
    tokens and runs off the end of the stack, where the resolver answers
    with the empty string. *)
Lemma answersLastToken_fails : ~ answersLastToken asciiLower goroutineStack.
Proof. unfold answersLastToken. vm_compute. discriminate. Qed.



(** ** More on the dispatcher *)

Section DispatcherMore.

Context {World : Type}.

Implicit Types (tc rest : list (Method World)) (m h : Method World)
  (s : state World) (n : string).

Lemma Call_invokes (P : string -> Prop) (v : option (Method World)) s :
  (forall m, v = Some m -> P (Name m)) ->
  exists s' o new,
    Call v s = (s', o) /\ calls s' = (calls s ++ new)%list /\
    stdout s' = stdout s /\ Forall P new.
Proof.
  intros HP.
  destruct (Call_cases v s) as (s' & o & E & Hout & [[-> _] | (m & Hv & _ & Hc & _)]).
  - exists s, o, []. rewrite app_nil_r. auto.
  - exists s', o, [Name m]. repeat split; auto.
Qed.

Lemma lookup_dispatchable tc n m :
  (n = "BeforeAll" \/ n = "BeforeEach" \/ HasPrefix n "Test" = true) ->
  MethodByName tc n = Some m -> dispatchable tc (Name m).
Proof.
  intros Hn Hm. pose proof (MethodByName_Some _ _ _ Hm) as [Hin Hn'].
  split; [now apply in_map | now rewrite Hn'].
Qed.

Lemma runTest_only tc be m s :
  exists s' o new,
    runTest tc be m s = (s', o) /\ calls s' = (calls s ++ new)%list /\
    Forall (dispatchable tc) new.
Proof.
  unfold runTest. destruct (HasPrefix (Name m) "Test") eqn:Ht.
  - assert (Hhook : exists s1 o1 new1,
               (if be then Call (MethodByName tc "BeforeEach") else ret tt) s = (s1, o1) /\
               calls s1 = (calls s ++ new1)%list /\ Forall (dispatchable tc) new1).
    { destruct be.
      - destruct (Call_invokes (dispatchable tc) (MethodByName tc "BeforeEach") s)
          as (s1 & o1 & new1 & E & Hc & _ & Hall).
        { intros h. apply lookup_dispatchable. auto. }
        exists s1, o1, new1. auto.
      - exists s, (Returned tt), []. rewrite app_nil_r. auto. }
    destruct Hhook as (s1 & o1 & new1 & E1 & Hc1 & Hall1).
    destruct o1 as [[]| |msg].
    + rewrite (bind_Returned _ _ _ _ _ E1).
      destruct (Call_invokes (dispatchable tc) (MethodByName tc (Name m)) s1)
        as (s2 & o2 & new2 & E2 & Hc2 & _ & Hall2).
      { intros m'. apply lookup_dispatchable. auto. }
      exists s2, o2, (new1 ++ new2)%list. split; [exact E2|]. split.
      * rewrite Hc2, Hc1. now rewrite app_assoc.
      * apply Forall_app. auto.
    + rewrite (bind_Goexit _ _ _ _ E1). exists s1, Goexit, new1. auto.
    + rewrite (bind_Panic _ _ _ _ _ E1). exists s1, (Panic msg), new1. auto.
  - exists s, (Returned tt), []. rewrite app_nil_r. auto.
Qed.

Lemma runTests_only tc rest be s :
  exists s' o new,
    runTests tc rest be s = (s', o) /\ calls s' = (calls s ++ new)%list /\
    Forall (dispatchable tc) new.
Proof.
  revert s. induction rest as [|m rest IH]; intros s; simpl.
  - exists s, (Returned tt), []. rewrite app_nil_r. auto.
  - destruct (runTest_only tc be m s) as (s1 & o1 & new1 & E1 & Hc1 & Hall1).
    destruct o1 as [[]| |msg].
    + rewrite (bind_Returned _ _ _ _ _ E1).
      destruct (IH s1) as (s2 & o2 & new2 & E2 & Hc2 & Hall2).
      exists s2, o2, (new1 ++ new2)%list. split; [exact E2|]. split.
      * rewrite Hc2, Hc1. now rewrite app_assoc.
      * apply Forall_app. auto.
    + rewrite (bind_Goexit _ _ _ _ E1). exists s1, Goexit, new1. auto.
    + rewrite (bind_Panic _ _ _ _ _ E1). exists s1, (Panic msg), new1. auto.
Qed.

(** X1: whatever the operations do, [Run] invokes nothing but methods of
    the value named exactly [BeforeAll] or [BeforeEach] or with the prefix
    ["Test"]: the assertion and request helpers of a test case, and hooks
    under a longer name, are never invoked. *)
Theorem Run_invokes_only_hooks_and_tests (tc : list (Method World)) (s : state World) :
  Forall (fun n => In n (map Name tc) /\
                   (n = "BeforeAll" \/ n = "BeforeEach" \/ HasPrefix n "Test" = true))
    (invoked tc s).
Proof.
  change (Forall (dispatchable tc) (invoked tc s)).
  unfold invoked, Run. destruct (scanHooks tc) as [be ba].
  assert (Hfirst : exists s1 o1 new1,
             (if ba then Call (MethodByName tc "BeforeAll") else ret tt) s = (s1, o1) /\
             calls s1 = (calls s ++ new1)%list /\ Forall (dispatchable tc) new1).
  { destruct ba.
    - destruct (Call_invokes (dispatchable tc) (MethodByName tc "BeforeAll") s)
        as (s1 & o1 & new1 & E & Hc & _ & Hall).
      { intros h. apply lookup_dispatchable. auto. }
      exists s1, o1, new1. auto.
    - exists s, (Returned tt), []. rewrite app_nil_r. auto. }
  destruct Hfirst as (s1 & o1 & new1 & E1 & Hc1 & Hall1).
  destruct o1 as [[]| |msg].
  - rewrite (bind_Returned _ _ _ _ _ E1), Printf_bind.
    match goal with |- context [runTests tc tc be ?x] => set (s2 := x) end.
    destruct (runTests_only tc tc be s2) as (s' & o & new2 & E2 & Hc2 & Hall2).
    rewrite E2. simpl.
    rewrite (newCalls_app s s' (new1 ++ new2)).
    + apply Forall_app. auto.
    + rewrite Hc2. simpl. rewrite Hc1. now rewrite app_assoc.
  - rewrite (bind_Goexit _ _ _ _ E1). simpl.
    now rewrite (newCalls_app _ _ _ Hc1).
  - rewrite (bind_Panic _ _ _ _ _ E1). simpl.
    now rewrite (newCalls_app _ _ _ Hc1).
Qed.

(** *** The order of the tests *)

Lemma filter_Test_BeforeEach :
  filter (fun n => HasPrefix n "Test") ["BeforeEach"] = [].
Proof. reflexivity. Qed.

(** One turn of the loop on a test invokes the test, or the loop ends. *)
Lemma runTest_progress tc be m s :
  HasPrefix (Name m) "Test" = true ->
  exists s' o new,
    runTest tc be m s = (s', o) /\ calls s' = (calls s ++ new)%list /\
    (filter (fun n => HasPrefix n "Test") new = [Name m] \/
     (filter (fun n => HasPrefix n "Test") new = [] /\ o <> Returned tt)).
Proof.
  intros Ht. unfold runTest. rewrite Ht.
  assert (Hhook : exists s1 o1 new1,
             (if be then Call (MethodByName tc "BeforeEach") else ret tt) s = (s1, o1) /\
             calls s1 = (calls s ++ new1)%list /\
             filter (fun n => HasPrefix n "Test") new1 = []).
  { destruct be.
    - destruct (Call_cases (MethodByName tc "BeforeEach") s)
        as (s1 & o1 & E & _ & [[-> _] | (h & Hh & _ & Hc & _)]).
      + exists s, o1, []. rewrite app_nil_r. auto.
      + exists s1, o1, [Name h]. apply MethodByName_Some in Hh as [_ Hn].
        rewrite Hn in *. split; [exact E|]. split; [exact Hc | reflexivity].
    - exists s, (Returned tt), []. rewrite app_nil_r. auto. }
  destruct Hhook as (s1 & o1 & new1 & E1 & Hc1 & Hf1).
  destruct o1 as [[]| |msg].
  - rewrite (bind_Returned _ _ _ _ _ E1).
    destruct (Call_cases (MethodByName tc (Name m)) s1)
      as (s2 & o2 & E2 & _ & [[-> Hno] | (m' & Hm' & _ & Hc2 & _)]).
    + exists s1, o2, new1. auto.
    + exists s2, o2, (new1 ++ [Name m'])%list.
      apply MethodByName_Some in Hm' as [_ Hn]. split; [exact E2|]. split.
      * rewrite Hc2, Hc1. now rewrite app_assoc.
      * left. rewrite filter_app, Hf1, Hn. simpl. now rewrite Ht.
  - rewrite (bind_Goexit _ _ _ _ E1). exists s1, Goexit, new1.
    repeat split; auto. right. split; [exact Hf1 | discriminate].
  - rewrite (bind_Panic _ _ _ _ _ E1). exists s1, (Panic msg), new1.
    repeat split; auto. right. split; [exact Hf1 | discriminate].
Qed.

Lemma runTests_progress tc rest be s :
  exists s' o new later,
    runTests tc rest be s = (s', o) /\ calls s' = (calls s ++ new)%list /\
    testNames rest = (filter (fun n => HasPrefix n "Test") new ++ later)%list.
Proof.
  revert s. induction rest as [|m rest IH]; intros s; simpl.
  - exists s, (Returned tt), [], []. rewrite app_nil_r. auto.
  - rewrite testNames_cons. destruct (HasPrefix (Name m) "Test") eqn:Ht.
    + destruct (runTest_progress tc be m s Ht)
        as (s1 & o1 & new1 & E1 & Hc1 & [Hf1 | [Hf1 Hno]]).
      * destruct o1 as [[]| |msg].
        -- rewrite (bind_Returned _ _ _ _ _ E1).
           destruct (IH s1) as (s2 & o2 & new2 & later & E2 & Hc2 & Hts).
           exists s2, o2, (new1 ++ new2)%list, later. split; [exact E2|]. split.
           ++ rewrite Hc2, Hc1. now rewrite app_assoc.
           ++ rewrite filter_app, Hf1, Hts. reflexivity.
        -- rewrite (bind_Goexit _ _ _ _ E1).
           exists s1, Goexit, new1, (testNames rest). rewrite Hf1. auto.
        -- rewrite (bind_Panic _ _ _ _ _ E1).
           exists s1, (Panic msg), new1, (testNames rest). rewrite Hf1. auto.
      * exists s1, o1, new1, (Name m :: testNames rest). rewrite Hf1.
        split; [|auto]. unfold bind. rewrite E1.
        destruct o1 as [[]| |msg]; [contradiction | reflexivity ..].
    + rewrite (bind_Returned _ _ _ _ _ (runTest_skip _ _ _ _ Ht)). apply IH.
Qed.

(** X2: whatever the operations do, the test operations [Run] invokes are
    the first ones of the enumeration, in the order of the enumeration:
    none is skipped before a later one runs and none runs twice. *)
Theorem Run_runs_tests_in_order (tc : list (Method World)) (s : state World) :
  exists later,
    testNames tc
    = (filter (fun n => HasPrefix n "Test") (invoked tc s) ++ later)%list.
Proof.
  unfold invoked.
  destruct (Run_cases tc s) as (s1 & o1 & new1 & Hc1 & Hnew1 & Hstop & Hgo).
  assert (Hf1 : filter (fun n => HasPrefix n "Test") new1 = [])
    by (destruct Hnew1 as [-> | ->]; reflexivity).
  destruct o1 as [[]| |msg].
  - rewrite (Hgo eq_refl).
    match goal with |- context [runTests tc tc ?b ?x] => set (s2 := x); set (be := b) end.
    destruct (runTests_progress tc tc be s2) as (s' & o & new2 & later & E & Hc2 & Hts).
    rewrite E. simpl. exists later.
    rewrite (newCalls_app s s' (new1 ++ new2)).
    + now rewrite filter_app, Hf1.
    + rewrite Hc2. simpl. rewrite Hc1. now rewrite app_assoc.
  - rewrite Hstop by discriminate. simpl. exists (testNames tc).
    now rewrite (newCalls_app _ _ _ Hc1), Hf1.
  - rewrite Hstop by discriminate. simpl. exists (testNames tc).
    now rewrite (newCalls_app _ _ _ Hc1), Hf1.
Qed.

(** *** The full schedule *)

Lemma hasNamed_found tc n :
  hasNamed n tc = true -> exists h, MethodByName tc n = Some h.
Proof.
  unfold hasNamed, MethodByName. induction tc as [|m tc IH]; simpl; [discriminate|].
  destruct (String.eqb (Name m) n); simpl; [eauto | exact IH].
Qed.

Lemma runBodies_app (a b : list (Method World)) (w : World) :
  runBodies (a ++ b) w = runBodies b (runBodies a w).
Proof. unfold runBodies. apply fold_left_app. Qed.

(** The second loop when the hook and the tests return: the calls made
    and the world they leave. *)
Lemma runTests_plan tc rest (hk : list (Method World)) (be : bool) s :
  wellFormed tc ->
  incl rest tc ->
  (if be then exists h, hk = [h] /\ MethodByName tc "BeforeEach" = Some h
   else hk = []) ->
  (filter (fun m => HasPrefix (Name m) "Test") rest <> [] ->
   forall m, In m hk -> NumIn m = 0%nat /\ returns m) ->
  (forall m, In m rest -> HasPrefix (Name m) "Test" = true ->
             NumIn m = 0%nat /\ returns m) ->
  runTests tc rest be s
  = ({| calls := (calls s ++
                  map Name (flat_map (fun m => (hk ++ [m])%list)
                              (filter (fun m => HasPrefix (Name m) "Test") rest)))%list;
        stdout := stdout s;
        world := runBodies (flat_map (fun m => (hk ++ [m])%list)
                              (filter (fun m => HasPrefix (Name m) "Test") rest))
                   (world s) |},
     Returned tt).
Proof.
  intros Hwf Hincl Hhk. revert s.
  induction rest as [|m rest IH]; intros s Hhook Hall.
  - simpl. rewrite app_nil_r. now destruct s.
  - assert (Hrest : incl rest tc) by (intros x Hx; apply Hincl; now right).
    assert (Hall' : forall m0, In m0 rest -> HasPrefix (Name m0) "Test" = true ->
                               NumIn m0 = 0%nat /\ returns m0)
      by (intros m0 Hin; apply Hall; now right).
    cbn [runTests filter] in *. destruct (HasPrefix (Name m) "Test") eqn:Ht.
    + destruct (Hall m (or_introl eq_refl) Ht) as [Ha Hr].
      assert (Hhook' : forall h, In h hk -> NumIn h = 0%nat /\ returns h)
        by (apply Hhook; discriminate).
      assert (Hm : MethodByName tc (Name m) = Some m)
        by (apply MethodByName_self; [exact Hwf | apply Hincl; now left]).
      assert (E : runTest tc be m s
                  = ({| calls := (calls s ++ map Name (hk ++ [m]))%list;
                        stdout := stdout s;
                        world := runBodies (hk ++ [m])%list (world s) |}, Returned tt)).
      { unfold runTest. rewrite Ht, Hm. destruct be.
        - destruct Hhk as (h & -> & Hh).
          destruct (Hhook' h (or_introl eq_refl)) as [Hah Hrh].
          rewrite Hh. rewrite (bind_Returned _ _ _ _ _ (Call_returns _ _ Hah Hrh)).
          rewrite (Call_returns _ _ Ha Hr). simpl. now rewrite <- app_assoc.
        - subst hk. rewrite bind_ret, (Call_returns _ _ Ha Hr). reflexivity. }
      rewrite (bind_Returned _ _ _ _ _ E), (IH Hrest _ (fun _ => Hhook') Hall').
      simpl. rewrite !map_app, !runBodies_app, <- !app_assoc. reflexivity.
    + rewrite (bind_Returned _ _ _ _ _ (runTest_skip _ _ _ _ Ht)).
      apply (IH Hrest _ Hhook Hall').
Qed.


End DispatcherMore.

Section DispatcherEdges.

Context {World : Type}.

Implicit Types (tc rest : list (Method World)) (m h : Method World)
  (s : state World) (n : string).


(** *** [Run] without hooks *)

Lemma runTest_without_hook tc m s :
  runTest tc false m s
  = (if HasPrefix (Name m) "Test"
     then Call (MethodByName tc (Name m))
     else ret tt) s.
Proof. unfold runTest. destruct (HasPrefix (Name m) "Test"); reflexivity. Qed.

Lemma runTests_without_hook tc rest s :
  runTests tc rest false s = Hookless.loop tc rest s.
Proof.
  revert s. induction rest as [|m rest IH]; intros s; simpl; [reflexivity|].
  unfold bind. rewrite runTest_without_hook.
  destruct ((if HasPrefix (Name m) "Test"
             then Call (MethodByName tc (Name m))
             else ret tt) s) as [s1 [[]| |msg]]; auto.
Qed.

(** X5: on a value without hook-prefixed method names, [Run] with hooks
    does what [Run] without hooks does, after printing its banner. *)
Theorem Run_agrees_with_hookless_Run (tc : list (Method World)) (s : state World) :
  hookFree tc = true ->
  Run tc s
  = Hookless.Run tc
      {| calls := calls s; stdout := (stdout s ++ [banner])%list; world := world s |}.
Proof.
  intros Hfree. rewrite (Run_hookFree _ _ Hfree). apply runTests_without_hook.
Qed.

Lemma Hookless_loop_outcome tc rest s :
  incl rest tc ->
  (forall m, In m tc -> HasPrefix (Name m) "Test" = true -> NumIn m = 0%nat) ->
  snd (Hookless.loop tc rest s) = Returned tt \/
  exists m w, In m tc /\ HasPrefix (Name m) "Test" = true /\
              snd (Func m w) = snd (Hookless.loop tc rest s).
Proof.
  intros Hincl Harity. revert s.
  induction rest as [|m rest IH]; intros s; simpl; [now left|].
  assert (Hrest : incl rest tc) by (intros x Hx; apply Hincl; now right).
  destruct (HasPrefix (Name m) "Test") eqn:Ht.
  - destruct (MethodByName_In tc m) as (m' & Hm' & Hn & Hin'); [apply Hincl; now left|].
    assert (Ht' : HasPrefix (Name m') "Test" = true) by now rewrite Hn.
    unfold bind. rewrite Hm', (Call_zero_arity _ _ (Harity m' Hin' Ht')).
    destruct (snd (Func m' (world s))) as [[]| |msg] eqn:Eo.
    + apply IH. exact Hrest.
    + right. exists m', (world s). auto.
    + right. exists m', (world s). auto.
  - rewrite bind_ret. apply IH. exact Hrest.
Qed.

(** X6: [Run] without hooks looks every test up under the name it
    enumerated, so it never calls a zero [Value]: when the test operations
    take no argument, it returns, or ends the way one of the test
    operations ended. *)
Theorem Hookless_Run_fails_only_in_a_test (tc : list (Method World)) (s : state World) :
  (forall m, In m tc -> HasPrefix (Name m) "Test" = true -> NumIn m = 0%nat) ->
  snd (Hookless.Run tc s) = Returned tt \/
  exists m w, In m tc /\ HasPrefix (Name m) "Test" = true /\
              snd (Func m w) = snd (Hookless.Run tc s).
Proof. intros Harity. apply Hookless_loop_outcome; [apply incl_refl | exact Harity]. Qed.

End DispatcherEdges.

(** *** The dispatcher on the sample inputs *)

Lemma Run_BeforeAll_first_witness :
  MethodByName hooked "BeforeAll" = Some (passes "BeforeAll") /\
  exists later, invoked hooked fresh = "BeforeAll" :: later /\ ~ In "BeforeAll" later.
Proof.
  split; [reflexivity|].
  exact (Run_BeforeAll_first hooked (passes "BeforeAll") fresh eq_refl eq_refl).
Defined.

Lemma logging_wellFormed : wellFormed logging.
Proof.
  unfold wellFormed. simpl. repeat constructor; simpl; intuition discriminate.
Qed.



Lemma Run_agrees_with_hookless_Run_witness :
  hookFree allPass = true /\
  Run allPass fresh
  = Hookless.Run allPass {| calls := []; stdout := [banner]; world := world fresh |}.
Proof.
  split; [reflexivity|].
  exact (Run_agrees_with_hookless_Run allPass fresh eq_refl).
Defined.

Lemma Hookless_Run_fails_only_in_a_test_witness :
  (forall m, In m firstFails -> HasPrefix (Name m) "Test" = true -> NumIn m = 0%nat) /\
  snd (Hookless.Run firstFails fresh) = Goexit /\
  (snd (Hookless.Run firstFails fresh) = Returned tt \/
   exists m w, In m firstFails /\ HasPrefix (Name m) "Test" = true /\
               snd (Func m w) = snd (Hookless.Run firstFails fresh)).
Proof.
  assert (Harity : forall m, In m firstFails -> HasPrefix (Name m) "Test" = true ->
                             NumIn m = 0%nat).
  { intros m [<-|[<-|[]]] _; reflexivity. }
  split; [exact Harity|]. split; [reflexivity|].
  exact (Hookless_Run_fails_only_in_a_test firstFails fresh Harity).
Defined.

(** ** More on the failure-site resolver *)

Lemma last_In (l : list string) (d : string) : l <> [] -> In (last l d) l.
Proof.
  induction l as [|x l IH]; [contradiction|]. intros _.
  destruct l as [|y l]; [now left|]. right. apply IH. discriminate.
Qed.

Lemma Contains_head (c sep : ascii) (p : string) :
  Ascii.eqb c sep = false ->
  Contains p (String sep "") = false ->
  Contains (String c p) (String sep "") = false.
Proof.
  intros Hc Hp. cbn [Contains]. rewrite Hp. cbv [HasPrefix].
  rewrite Ascii.eqb_sym, Hc. reflexivity.
Qed.

(** No part of a split contains the separator. *)
Lemma Split_parts (s : string) (sep : ascii) :
  Forall (fun p => Contains p (String sep "") = false) (Split s sep).
Proof.
  induction s as [|c s IH]; simpl.
  - repeat constructor.
  - destruct (Ascii.eqb c sep) eqn:Hc.
    + constructor; [reflexivity | exact IH].
    + destruct (Split s sep) as [|p ps].
      * constructor; [|constructor]. now apply Contains_head.
      * inversion IH as [|? ? Hp Hps]; subst.
        constructor; [now apply Contains_head | exact Hps].
Qed.

(** The base name of a frame's file contains no ["/"]. *)
Lemma baseOf_has_no_slash (f : Frame) : Contains (baseOf f) "/" = false.
Proof.
  unfold baseOf.
  pose proof (Split_parts (pc_file f) slash) as Hall.
  pose proof (Split_not_nil (pc_file f) slash) as Hne.
  rewrite Forall_forall in Hall. apply Hall. now apply last_In.
Qed.

Section ResolverMore.

Variable LowerTable : Z -> bool.

Lemma passedBy_inv (f : Frame) :
  passedBy LowerTable f = true ->
  sentinel f = false /\ (exists dir, dirOf f = Some dir) /\
  boundary LowerTable f = false.
Proof.
  unfold passedBy. intros H.
  apply andb_true_iff in H as [H Hb]. apply andb_true_iff in H as [Hs Hd].
  apply negb_true_iff in Hs, Hb.
  destruct (dirOf f) as [dir|]; [eauto | discriminate].
Qed.

(** The walk over frames it passes by accumulates their tokens. *)
Lemma walk_passes (inner rest : list Frame) (callers : list string) :
  forallb (passedBy LowerTable) inner = true ->
  walk LowerTable (inner ++ rest) callers
  = walk LowerTable rest (callers ++ tokensOf inner).
Proof.
  revert callers. induction inner as [|f inner IH]; intros callers H.
  - simpl. now rewrite app_nil_r.
  - simpl in H. apply andb_true_iff in H as [Hf Hinner].
    destruct (passedBy_inv f Hf) as (Hs & [dir Hd] & Hb).
    cbn [walk app]. rewrite (visit_frame _ _ _ _ Hs Hd), Hb. cbv beta zeta iota.
    rewrite (IH _ Hinner). unfold tokensOf. cbn [filter].
    destruct (excluded f); cbn [negb map]; [reflexivity|].
    now rewrite <- app_assoc.
Qed.

(** X8: the resolver guards against the file [<autogenerated>] only.  At
    any other frame whose file has no directory part (no ["/"]), reached
    before the walk stops, the index [len(parts)-2] is out of range and
    [CallerInfo] panics. *)
Theorem CallerInfo_panics_without_directory (inner : list Frame) (f : Frame)
    (outer : list Frame) :
  forallb (passedBy LowerTable) inner = true ->
  sentinel f = false ->
  dirOf f = None ->
  exists msg, CallerInfo LowerTable (inner ++ f :: outer)%list = Panic msg.
Proof.
  intros Hinner Hs Hd. unfold CallerInfo. rewrite (walk_passes _ _ _ Hinner).
  cbn [walk app].
  destruct (visit_crash LowerTable f (tokensOf inner) Hs Hd) as [msg ->].
  eauto.
Qed.

(** X9: the walk ends at the first frame whose function is an entry point
    or does not resolve, whatever lies further out; the resolver answers
    with the token of that frame unless the frame is excluded, and then
    with the last token accumulated before it, if any. *)
Theorem CallerInfo_stops_at_boundary (inner : list Frame) (f : Frame)
    (outer : list Frame) :
  forallb (passedBy LowerTable) inner = true ->
  sentinel f = false ->
  dirOf f <> None ->
  boundary LowerTable f = true ->
  CallerInfo LowerTable (inner ++ f :: outer)%list
  = Returned (if excluded f then last (tokensOf inner) "" else token f).
Proof.
  intros Hinner Hs Hd Hb. unfold CallerInfo. rewrite (walk_passes _ _ _ Hinner).
  destruct (dirOf f) as [dir|] eqn:Hdir; [|contradiction].
  cbn [walk app]. rewrite (visit_frame _ _ _ _ Hs Hdir), Hb. cbv beta zeta iota.
  rewrite afterLoop_last. destruct (excluded f); [reflexivity|].
  now rewrite last_last.
Qed.

(** X10: at a frame of the file [<autogenerated>] the walk ends without
    looking at the frame or at anything further out: the resolver answers
    with the last token accumulated so far, if any. *)
Theorem CallerInfo_stops_at_autogenerated (inner : list Frame) (f : Frame)
    (outer : list Frame) :
  forallb (passedBy LowerTable) inner = true ->
  pc_file f = "<autogenerated>" ->
  CallerInfo LowerTable (inner ++ f :: outer)%list
  = Returned (last (tokensOf inner) "").
Proof.
  intros Hinner Hf. unfold CallerInfo. rewrite (walk_passes _ _ _ Hinner).
  cbn [walk app]. rewrite visit_sentinel.
  - apply afterLoop_last.
  - unfold sentinel. rewrite Hf. reflexivity.
Qed.

Lemma walk_result (frames : list Frame) (callers : list string) (r : string) :
  walk LowerTable frames callers = Returned r ->
  r = "" \/ In r callers \/
  exists f, In f frames /\ sentinel f = false /\ excluded f = false /\ r = token f.
Proof.
  assert (Hlast : forall cs, Returned (last cs "") = Returned r ->
                             r = "" \/ In r cs).
  { intros cs E. inversion E. destruct cs as [|c cs]; [now left|].
    right. apply last_In. discriminate. }
  revert callers. induction frames as [|f frames IH]; intros callers E.
  - simpl in E. inversion E. now left.
  - cbn [walk] in E. destruct (sentinel f) eqn:Hs.
    + rewrite (visit_sentinel _ _ _ Hs), afterLoop_last in E.
      destruct (Hlast _ E); auto.
    + destruct (dirOf f) as [dir|] eqn:Hd.
      * rewrite (visit_frame _ _ _ _ Hs Hd) in E. cbv zeta in E.
        assert (Hstep : In r (if excluded f then callers
                              else (callers ++ [token f])%list) ->
                        In r callers \/ (excluded f = false /\ r = token f)).
        { intros Hin. destruct (excluded f); [now left|].
          apply in_app_or in Hin as [Hin | [<- | []]]; auto. }
        destruct (boundary LowerTable f).
        -- rewrite afterLoop_last in E. destruct (Hlast _ E) as [-> | Hin]; [now left|].
           destruct (Hstep Hin) as [? | [Hex ->]]; [auto|].
           right. right. exists f. repeat split; auto. now left.
        -- destruct (IH _ E) as [-> | [Hin | (g & Hg & Hsg & Hexg & ->)]]; [now left| |].
           ++ destruct (Hstep Hin) as [? | [Hex ->]]; [auto|].
              right. right. exists f. repeat split; auto. now left.
           ++ right. right. exists g. repeat split; auto. now right.
      * destruct (visit_crash LowerTable f callers Hs Hd) as [msg Hv].
        rewrite Hv in E. discriminate.
Qed.

(** X11: what the resolver returns is the empty string or the token of a
    frame of the stack that is not excluded: it never names a frame of the
    internal directories (other than [mock_test.go]) and never a frame
    without source information.  The token is the base name of the
    frame's file, without any ["/"], then [":"] and the line. *)
Theorem CallerInfo_returns_token_of_included_frame (stack : list Frame) (r : string) :
  CallerInfo LowerTable stack = Returned r ->
  r = "" \/
  exists f, In f stack /\ sentinel f = false /\ excluded f = false /\
            r = baseOf f ++ ":" ++ itoa (pc_line f) /\
            Contains (baseOf f) "/" = false.
Proof.
  intros E. destruct (walk_result stack [] r E) as [? | [[] | (f & ? & ? & ? & ?)]];
    [now left|].
  right. exists f. repeat split; auto. apply baseOf_has_no_slash.
Qed.

(** X12: after its prefix, a name whose next byte is ASCII is an entry
    point exactly when that byte is not one of [a]..[z], whatever follows
    and whatever the tables of package [unicode] hold: digits, [_] and
    upper-case letters are accepted. *)
Theorem isTest_decided_by_next_byte (prefix rest : string) (c : ascii) :
  byte c < 0x80 ->
  isTest LowerTable (prefix ++ String c rest) prefix
  = negb ((97 <=? byte c) && (byte c <=? 122)).
Proof.
  intros Hc. unfold isTest. rewrite HasPrefix_app. cbn [negb].
  destruct (Nat.eqb (len (prefix ++ String c rest)) (len prefix)) eqn:Hl.
  - apply (len_app_same prefix) in Hl. discriminate.
  - rewrite sliceFrom_app. unfold DecodeRuneInString, IsLower.
    apply Z.ltb_lt in Hc. rewrite Hc. now rewrite Hc.
Qed.

End ResolverMore.

Lemma CallerInfo_panics_without_directory_witness :
  forallb (passedBy asciiLower) assertingFrames = true /\
  sentinel bareFrame = false /\
  dirOf bareFrame = None /\
  exists msg, CallerInfo asciiLower (assertingFrames ++ [bareFrame; userTest])%list
              = Panic msg.
Proof.
  split; [reflexivity|]. split; [reflexivity|]. split; [reflexivity|].
  exact (CallerInfo_panics_without_directory asciiLower assertingFrames bareFrame
           [userTest] eq_refl eq_refl eq_refl).
Defined.

Lemma CallerInfo_stops_at_boundary_witness :
  forallb (passedBy asciiLower) assertingFrames = true /\
  boundary asciiLower userTest = true /\
  CallerInfo asciiLower (assertingFrames ++ [userTest; helperFrame])%list
  = Returned "cart_test.go:12".
Proof.
  assert (Hd : dirOf userTest <> None) by discriminate.
  split; [reflexivity|]. split; [reflexivity|].
  exact (CallerInfo_stops_at_boundary asciiLower assertingFrames userTest
           [helperFrame] eq_refl eq_refl Hd eq_refl).
Defined.

Lemma CallerInfo_stops_at_autogenerated_witness :
  forallb (passedBy asciiLower) assertingFrames = true /\
  CallerInfo asciiLower (assertingFrames ++ [autogenerated; userTest])%list
  = Returned "asserting.go:77".
Proof.
  split; [reflexivity|].
  exact (CallerInfo_stops_at_autogenerated asciiLower assertingFrames autogenerated
           [userTest] eq_refl eq_refl).
Defined.

Lemma CallerInfo_returns_token_of_included_frame_witness :
  CallerInfo asciiLower [libraryHelper; userTest] = Returned "cart_test.go:12" /\
  ("cart_test.go:12" = "" \/
   exists f, In f [libraryHelper; userTest] /\ sentinel f = false /\
             excluded f = false /\
             "cart_test.go:12" = baseOf f ++ ":" ++ itoa (pc_line f) /\
             Contains (baseOf f) "/" = false).
Proof.
  split; [reflexivity|].
  exact (CallerInfo_returns_token_of_included_frame asciiLower
           [libraryHelper; userTest] "cart_test.go:12" eq_refl).
Defined.

Lemma isTest_decided_by_next_byte_witness :
  byte "_"%char < 0x80 /\
  isTest asciiLower "Test_cart" "Test" = true /\
  isTest asciiLower "Testing" "Test" = false.
Proof.
  assert (Hu : byte "_"%char < 0x80) by reflexivity.
  assert (Hi : byte "i"%char < 0x80) by reflexivity.
  split; [exact Hu|]. split.
  - exact (isTest_decided_by_next_byte asciiLower "Test" "cart" "_"%char Hu).
  - exact (isTest_decided_by_next_byte asciiLower "Test" "ng" "i"%char Hi).
Defined.

(** ** The assertions and requests of a test case *)

Section WebFacts.

Variable LowerTable : Z -> bool.
Variable httpGet : string -> option Response * option string.

(** X13: the assertion reports the site the resolver finds.  When the
    walk from the assertion passes by the frames up to the first one in an
    entry point (or in a function that does not resolve), and that frame
    is not excluded, [Assert(false)] logs ["Expected true, got false"]
    followed by that frame's file:line in brackets, marks the test failed
    and leaves through [runtime.Goexit]; [Assert(true)] does nothing. *)
Theorem Assert_reports_site (inner : list Frame) (f : Frame) (outer : list Frame)
    (t : testingT) :
  forallb (passedBy LowerTable) inner = true ->
  sentinel f = false ->
  excluded f = false ->
  dirOf f <> None ->
  boundary LowerTable f = true ->
  Assert LowerTable (inner ++ f :: outer)%list true t = (t, Returned tt) /\
  Assert LowerTable (inner ++ f :: outer)%list false t
  = ({| failed := true;
        output := (output t ++ [("Expected true, got false [" ++ token f ++ "]")%string])%list |},
     Goexit).
Proof.
  intros Hinner Hs Hex Hd Hb. split; [reflexivity|].
  unfold Assert, CallerInfo. cbn [negb]. unfold bind, lift.
  rewrite (walk_passes _ _ _ _ Hinner).
  destruct (dirOf f) as [dir|] eqn:Hdir; [|contradiction].
  cbn [walk app]. rewrite (visit_frame _ _ _ _ Hs Hdir), Hb, Hex. cbv beta zeta iota.
  rewrite afterLoop_last, last_last. reflexivity.
Qed.

(** X14: when the walk runs off the end of the stack, the failure is
    still reported, with empty brackets for a site:
    ["Expected true, got false []"]. *)
Theorem Assert_without_site (stack : list Frame) (t : testingT) :
  forallb (passedBy LowerTable) stack = true ->
  Assert LowerTable stack false t
  = ({| failed := true;
        output := (output t ++ ["Expected true, got false []"])%list |},
     Goexit).
Proof.
  intros Hall. unfold Assert, CallerInfo. cbn [negb]. unfold bind, lift.
  rewrite <- (app_nil_r stack), (walk_passes _ _ _ _ Hall). reflexivity.
Qed.

(** X15: when the resolver panics, at a frame whose file has no directory
    part, the failing assertion panics with it before it reaches
    [Fatalf]: nothing is logged and the test is not marked failed. *)
Theorem Assert_panics_with_resolver (inner : list Frame) (f : Frame)
    (outer : list Frame) (t : testingT) :
  forallb (passedBy LowerTable) inner = true ->
  sentinel f = false ->
  dirOf f = None ->
  exists msg,
    Assert LowerTable (inner ++ f :: outer)%list false t = (t, Panic msg).
Proof.
  intros Hinner Hs Hd. unfold Assert, CallerInfo. cbn [negb]. unfold bind, lift.
  rewrite (walk_passes _ _ _ _ Hinner). cbn [walk app].
  destruct (visit_crash LowerTable f (tokensOf inner) Hs Hd) as [msg ->].
  eauto.
Qed.


(** X17: a request that fails in transport returns normally: it records
    the error and the response it was given, and keeps the body of the
    previous response.  [AssertOK] then fails the test with the request
    error; [AssertStatus], which reads the status without looking at the
    error, panics on the missing response. *)
Theorem Get_transport_error (stack : list Frame) (info base url e : string)
    (resp : option Response) (code : Z) (t : TestCase) :
  server t = Some base ->
  httpGet (base ++ url) = (resp, Some e) ->
  CallerInfo LowerTable stack = Returned info ->
  let t' := {| ResponseBody := ResponseBody t; T := T t; err := Some e;
               server := server t; response := resp |} in
  Get LowerTable httpGet stack url t = (t', Returned tt) /\
  bind (Get LowerTable httpGet stack url) (fun _ => AssertOK LowerTable stack) t
  = fatal ("Request error is not nil: " ++ e ++ " [" ++ info ++ "]") t' /\
  (resp = None ->
   bind (Get LowerTable httpGet stack url)
     (fun _ => AssertStatus LowerTable stack code) t
   = (t', Panic nilDereference)).
Proof.
  intros Hsrv Hget E t'.
  assert (EG : Get LowerTable httpGet stack url t = (t', Returned tt)).
  { subst t'. unfold Get. rewrite Hsrv, Hget. reflexivity. }
  split; [exact EG|]. split.
  - rewrite (bind_Returned _ _ _ _ _ EG).
    unfold AssertOK, bind, lift. rewrite E. reflexivity.
  - intros ->. rewrite (bind_Returned _ _ _ _ _ EG). reflexivity.
Qed.

(** X18: on a test case with a server, a request followed by [AssertOK]
    returns exactly when the request was answered without error, the body
    was read without error and the status is 200; the test case then
    holds the body that was read. *)
Theorem Get_then_AssertOK (stack : list Frame) (info base url : string)
    (t : TestCase) :
  server t = Some base ->
  CallerInfo LowerTable stack = Returned info ->
  (snd (bind (Get LowerTable httpGet stack url)
          (fun _ => AssertOK LowerTable stack) t) = Returned tt
   <-> exists r, httpGet (base ++ url) = (Some r, None) /\
                 ReadErr r = None /\ StatusCode r = 200) /\
  (forall r, httpGet (base ++ url) = (Some r, None) ->
             ReadErr r = None -> StatusCode r = 200 ->
             bind (Get LowerTable httpGet stack url)
               (fun _ => AssertOK LowerTable stack) t
             = ({| ResponseBody := Body r; T := T t; err := None;
                   server := server t; response := Some r |}, Returned tt)).
Proof.
  intros Hsrv E.
  assert (Hok : forall r, httpGet (base ++ url) = (Some r, None) ->
                          ReadErr r = None -> StatusCode r = 200 ->
                          bind (Get LowerTable httpGet stack url)
                            (fun _ => AssertOK LowerTable stack) t
                          = ({| ResponseBody := Body r; T := T t; err := None;
                                server := server t; response := Some r |},
                             Returned tt)).
  { intros r Hget Hread Hcode.
    unfold bind at 1. unfold Get. rewrite Hsrv, Hget, Hread.
    unfold AssertOK, bind, ret. cbn [err response]. rewrite Hcode. reflexivity. }
  split; [|exact Hok]. split.
  - unfold bind at 1. unfold Get. rewrite Hsrv.
    destruct (httpGet (base ++ url)) as [resp [e|]].
    + unfold AssertOK, bind, lift. rewrite E. cbn [err]. discriminate.
    + destruct resp as [r|]; [|discriminate].
      unfold AssertOK, bind, lift, ret. rewrite E. cbn [err response].
      destruct (ReadErr r) as [e|] eqn:Hread; [discriminate|].
      destruct (Z.eqb_spec (StatusCode r) StatusOK) as [Hc|Hc]; cbn [negb];
        [|discriminate].
      intros _. exists r. auto.
  - intros (r & Hget & Hread & Hcode). now rewrite (Hok r Hget Hread Hcode).
Qed.

(** X19: a test case made by [NewTestCase] has no server and no response.
    On it, [Get] fails the test with ["Uninitialized test server"] whatever
    the network would answer, [AssertOK] fails the test with
    ["Response is nil"], and [AssertStatus] panics on the missing response
    without failing the test. *)
Theorem NewTestCase_without_request (stack : list Frame) (info url : string)
    (code : Z) (t : testingT) :
  CallerInfo LowerTable stack = Returned info ->
  Get LowerTable httpGet stack url (NewTestCase t)
  = fatal ("Uninitialized test server [" ++ info ++ "]") (NewTestCase t) /\
  AssertOK LowerTable stack (NewTestCase t)
  = fatal ("Response is nil [" ++ info ++ "]") (NewTestCase t) /\
  AssertStatus LowerTable stack code (NewTestCase t)
  = (NewTestCase t, Panic nilDereference).
Proof.
  intros E. unfold Get, AssertOK, AssertStatus, bind, lift, ret. rewrite E.
  repeat split.
Qed.

End WebFacts.

Lemma Assert_reports_site_witness :
  forallb (passedBy asciiLower) assertingFrames = true /\
  boundary asciiLower userTest = true /\
  Assert asciiLower (assertingFrames ++ [userTest; helperFrame])%list false
    {| failed := false; output := [] |}
  = ({| failed := true; output := ["Expected true, got false [cart_test.go:12]"] |},
     Goexit).
Proof.
  assert (Hd : dirOf userTest <> None) by discriminate.
  split; [reflexivity|]. split; [reflexivity|].
  exact (proj2 (Assert_reports_site asciiLower assertingFrames userTest [helperFrame]
                  {| failed := false; output := [] |}
                  eq_refl eq_refl eq_refl Hd eq_refl)).
Defined.

Lemma Assert_without_site_witness :
  forallb (passedBy asciiLower) goroutineStack = true /\
  Assert asciiLower goroutineStack false {| failed := false; output := [] |}
  = ({| failed := true; output := ["Expected true, got false []"] |}, Goexit).
Proof.
  split; [reflexivity|].
  exact (Assert_without_site asciiLower goroutineStack
           {| failed := false; output := [] |} eq_refl).
Defined.

Lemma Assert_panics_with_resolver_witness :
  dirOf bareFrame = None /\
  exists msg,
    Assert asciiLower (assertingFrames ++ [bareFrame; userTest])%list false
      {| failed := false; output := [] |}
    = ({| failed := false; output := [] |}, Panic msg).
Proof.
  split; [reflexivity|].
  exact (Assert_panics_with_resolver asciiLower assertingFrames bareFrame [userTest]
           {| failed := false; output := [] |} eq_refl eq_refl eq_refl).
Defined.


Example AssertOK_on_404 :
  AssertOK asciiLower (stackUnder "TestOrder" 31) (answered 404)
  = fatal "Expected 200, got 404 [suite_test.go:31]" (answered 404).
Proof. reflexivity. Qed.

Lemma Get_transport_error_witness :
  server (answered 200) = Some "http://127.0.0.1:8080" /\
  ResponseBody (fst (Get asciiLower unreachable (stackUnder "TestOrder" 30)
                       "/orders" (answered 200))) = "{}" /\
  snd (bind (Get asciiLower unreachable (stackUnder "TestOrder" 30) "/orders")
         (fun _ => AssertStatus asciiLower (stackUnder "TestOrder" 30) 200)
         (answered 200))
  = Panic nilDereference.
Proof.
  assert (E : CallerInfo asciiLower (stackUnder "TestOrder" 30)
              = Returned "suite_test.go:30") by reflexivity.
  destruct (Get_transport_error asciiLower unreachable (stackUnder "TestOrder" 30)
              "suite_test.go:30" "http://127.0.0.1:8080" "/orders"
              "connection refused" None 200 (answered 200) eq_refl eq_refl E)
    as (HG & _ & HS).
  split; [reflexivity|]. split.
  - rewrite HG. reflexivity.
  - rewrite (HS eq_refl). reflexivity.
Defined.

Lemma Get_then_AssertOK_witness :
  server (answered 404) = Some "http://127.0.0.1:8080" /\
  snd (bind (Get asciiLower alwaysOK (stackUnder "TestOrder" 30) "/orders")
         (fun _ => AssertOK asciiLower (stackUnder "TestOrder" 30)) (answered 404))
  = Returned tt.
Proof.
  assert (E : CallerInfo asciiLower (stackUnder "TestOrder" 30)
              = Returned "suite_test.go:30") by reflexivity.
  split; [reflexivity|].
  apply (proj1 (Get_then_AssertOK asciiLower alwaysOK (stackUnder "TestOrder" 30)
                  "suite_test.go:30" "http://127.0.0.1:8080" "/orders"
                  (answered 404) eq_refl E)).
  eexists. repeat split.
Defined.

Lemma NewTestCase_without_request_witness :
  CallerInfo asciiLower (stackUnder "TestOrder" 30) = Returned "suite_test.go:30" /\
  snd (Get asciiLower alwaysOK (stackUnder "TestOrder" 30) "/orders"
         (NewTestCase {| failed := false; output := [] |})) = Goexit /\
  snd (AssertStatus asciiLower (stackUnder "TestOrder" 30) 200
         (NewTestCase {| failed := false; output := [] |})) = Panic nilDereference.
Proof.
  assert (E : CallerInfo asciiLower (stackUnder "TestOrder" 30)
              = Returned "suite_test.go:30") by reflexivity.
  destruct (NewTestCase_without_request asciiLower alwaysOK (stackUnder "TestOrder" 30)
              "suite_test.go:30" "/orders" 200 {| failed := false; output := [] |} E)
    as (HG & _ & HS).
  split; [exact E|]. split.
  - rewrite HG. reflexivity.
  - rewrite HS. reflexivity.
Defined.
